(** * Verification of [assets/script.js]: the drought-prediction form controller

    The script reads a form, derives a forecast horizon in months (either from
    a manual selector or from a target date counted against the fixed date
    [LAST_DATA_DATE]), posts one request to the prediction backend and renders
    the answer, or an error banner.

    The development is a shallow embedding: the ECMAScript time-value
    arithmetic behind [Date], the string handling the script relies on, the
    pieces of the page the script writes to, and the submit listener as a
    state-and-exception computation over that page. *)

From Stdlib Require Import ZArith Lia List String Ascii Bool.
From Stdlib Require Import QArith Qround Qabs Qpower Lqa.
From Stdlib Require Import DecimalN.
From Stdlib Require Import Floats.SpecFloat.
From Stdlib Require Import DecimalString.
Import ListNotations.
Open Scope Z_scope.

(** ** ECMAScript time values

    A [Date] holds a time value: milliseconds since 1970-01-01T00:00:00Z.
    The definitions follow the abstract operations of the language
    specification ("Time Values and Time Range"), on unbounded integers. *)

Module TimeValue.

Definition msPerDay : Z := 86400000.
Definition msPerHour : Z := 3600000.
Definition msPerMinute : Z := 60000.
Definition msPerSecond : Z := 1000.

Definition Day (t : Z) : Z := t / msPerDay.
Definition TimeWithinDay (t : Z) : Z := t mod msPerDay.

Definition DaysInYear (y : Z) : Z :=
  if negb (y mod 4 =? 0) then 365
  else if negb (y mod 100 =? 0) then 366
  else if negb (y mod 400 =? 0) then 365
  else 366.

Definition DayFromYear (y : Z) : Z :=
  365 * (y - 1970) + (y - 1969) / 4 - (y - 1901) / 100 + (y - 1601) / 400.

Definition TimeFromYear (y : Z) : Z := msPerDay * DayFromYear y.

(** [YearFromTime t] is specified as the largest [y] with
    [TimeFromYear y <= t].  It is computed from an estimate over the mean
    year length (146097 days in 400 years), which is off by at most one. *)
Definition YearFromTime (t : Z) : Z :=
  let d := Day t in
  let y := 1970 + (400 * d) / 146097 in
  if DayFromYear (y + 1) <=? d then y + 1
  else if d <? DayFromYear y then y - 1
  else y.

Definition InLeapYear (t : Z) : Z :=
  if DaysInYear (YearFromTime t) =? 366 then 1 else 0.

Definition DayWithinYear (t : Z) : Z := Day t - DayFromYear (YearFromTime t).

(** Number of days of the year that precede month [m] (0 = January), in a
    year with [leap] extra days. *)
Definition DaysBeforeMonth (leap m : Z) : Z :=
  match m with
  | 0 => 0
  | 1 => 31
  | 2 => 59 + leap
  | 3 => 90 + leap
  | 4 => 120 + leap
  | 5 => 151 + leap
  | 6 => 181 + leap
  | 7 => 212 + leap
  | 8 => 243 + leap
  | 9 => 273 + leap
  | 10 => 304 + leap
  | 11 => 334 + leap
  | _ => 365 + leap
  end.

Definition MonthFromTime (t : Z) : Z :=
  let d := DayWithinYear t in
  let leap := InLeapYear t in
  if d <? 31 then 0
  else if d <? 59 + leap then 1
  else if d <? 90 + leap then 2
  else if d <? 120 + leap then 3
  else if d <? 151 + leap then 4
  else if d <? 181 + leap then 5
  else if d <? 212 + leap then 6
  else if d <? 243 + leap then 7
  else if d <? 273 + leap then 8
  else if d <? 304 + leap then 9
  else if d <? 334 + leap then 10
  else 11.

Definition LeapDays (y : Z) : Z := DaysInYear y - 365.

(** Days of month [m] (0 = January) of year [y]. *)
Definition DaysInMonth (y m : Z) : Z :=
  DaysBeforeMonth (LeapDays y) (m + 1) - DaysBeforeMonth (LeapDays y) m.

(** [MakeDay year month date], for a month index in 0..11: the day number of
    the first of the month, plus [date - 1]. *)
Definition MakeDay (year month date : Z) : Z :=
  let ym := year + month / 12 in
  let mn := month mod 12 in
  DayFromYear ym + DaysBeforeMonth (LeapDays ym) mn + date - 1.

Definition MakeTime (hour min sec ms : Z) : Z :=
  hour * msPerHour + min * msPerMinute + sec * msPerSecond + ms.

Definition MakeDate (day time : Z) : Z := day * msPerDay + time.

(** [TimeClip]: time values beyond 8.64e15 ms are not representable; [None]
    stands for the invalid date (NaN). *)
Definition TimeClip (t : Z) : option Z :=
  if Z.abs t <=? 8640000000000000 then Some t else None.

End TimeValue.

Import TimeValue.

(** ** Strings

    Script strings are modelled by [string]; every string the date logic
    inspects is made of ASCII characters, for which the script's [length] is
    the number of characters. *)

Module Str.

Local Open Scope string_scope.

(** [String.prototype.includes]. *)
Fixpoint includes (needle s : string) : bool :=
  prefix needle s ||
  match s with
  | EmptyString => false
  | String _ s' => includes needle s'
  end.

Definition digit_value (c : ascii) : option Z :=
  let n := Z.of_N (N_of_ascii c) in
  if ((48 <=? n) && (n <=? 57))%Z then Some (n - 48) else None.

Definition digit_char (n : Z) : ascii := ascii_of_N (Z.to_N (48 + n)).

(** Reads exactly [k] decimal digits, most significant first. *)
Fixpoint read_digits (k : nat) (acc : Z) (s : string) : option (Z * string) :=
  match k with
  | O => Some (acc, s)
  | S k' =>
      match s with
      | EmptyString => None
      | String c r =>
          match digit_value c with
          | Some v => read_digits k' (acc * 10 + v) r
          | None => None
          end
      end
  end.

(** Writes [n] on exactly [k] decimal digits, with leading zeros. *)
Fixpoint fixed_digits (k : nat) (n : Z) : string :=
  match k with
  | O => EmptyString
  | S k' =>
      String (digit_char (n / 10 ^ Z.of_nat k'))
             (fixed_digits k' (n mod 10 ^ Z.of_nat k'))
  end.

Definition expect (c : ascii) (s : string) : option string :=
  match s with
  | String c' r => if Ascii.eqb c c' then Some r else None
  | EmptyString => None
  end.

End Str.

Import Str.

(** ** Dates

    [new Date(s)] parses [s] to a time value.  The parser below covers what
    the language specification fixes for the strings this script builds, which
    all end in ["T00:00:00Z"]: a date in the Date Time String Format (a year
    on four digits, or a signed year on six, then optionally a month and a
    day) followed by a UTC time of day.  A string that is not a valid
    instance of that form is left to the engine, which may reject it or read
    it by rules of its own (engines differ, for instance on 30 February);
    that, and the local time zone, belong to the host. *)

Module JsDate.

Local Open Scope string_scope.

Record DateHost := {
  (** Offset of local time from UTC, in milliseconds, at the UTC time given. *)
  LocalTZA : Z -> Z;
  (** What the engine makes of a string that is not a valid instance of the
      standard format; [None] is the invalid date. *)
  legacy_parse : string -> option Z
}.

Definition read_year (s : string) : option (Z * string) :=
  match s with
  | String "+"%char r => read_digits 6 0 r
  | String "-"%char r =>
      match read_digits 6 0 r with
      | Some (y, r') => if (y =? 0)%Z then None else Some (- y, r')
      | None => None
      end
  | _ => read_digits 4 0 s
  end.

(** Year, month and day (the last two default to 1), and what follows. *)
Definition parse_date (s : string) : option (Z * Z * Z * string) :=
  match read_year s with
  | None => None
  | Some (y, r1) =>
      match r1 with
      | String "-"%char r2 =>
          match read_digits 2 0 r2 with
          | None => None
          | Some (m, r3) =>
              match r3 with
              | String "-"%char r4 =>
                  match read_digits 2 0 r4 with
                  | None => None
                  | Some (d, r5) => Some (y, m, d, r5)
                  end
              | _ => Some (y, m, 1, r3)
              end
          end
      | _ => Some (y, 1, 1, r1)
      end
  end.

(** ["THH:mm:ssZ"] or ["THH:mm:ss.sssZ"], up to the end of the string. *)
Definition parse_time_utc (s : string) : option (Z * Z * Z * Z) :=
  match expect "T"%char s with
  | None => None
  | Some r =>
  match read_digits 2 0 r with
  | None => None
  | Some (hh, r) =>
  match expect ":"%char r with
  | None => None
  | Some r =>
  match read_digits 2 0 r with
  | None => None
  | Some (mm, r) =>
  match expect ":"%char r with
  | None => None
  | Some r =>
  match read_digits 2 0 r with
  | None => None
  | Some (ss, r) =>
      match r with
      | "Z" => Some (hh, mm, ss, 0)
      | String "."%char r' =>
          match read_digits 3 0 r' with
          | Some (ms, "Z") => Some (hh, mm, ss, ms)
          | _ => None
          end
      | _ => None
      end
  end end end end end end.

Definition time_in_range (hh mm ss : Z) : bool :=
  ((hh <=? 23) && (mm <=? 59) && (ss <=? 59)
   || (hh =? 24) && (mm =? 0) && (ss =? 0))%Z.

Definition parse_iso (s : string) : option Z :=
  match parse_date s with
  | None => None
  | Some (y, m, d, r) =>
      match parse_time_utc r with
      | None => None
      | Some (hh, mm, ss, ms) =>
          if ((1 <=? m) && (m <=? 12) && (1 <=? d) && (d <=? DaysInMonth y (m - 1)))%Z
             && time_in_range hh mm ss
             && ((hh <? 24) || (ms =? 0))%Z
          then Some (MakeDate (MakeDay y (m - 1) d) (MakeTime hh mm ss ms))
          else None
      end
  end.

(** The time value of [new Date(s)]; [None] is the invalid date, whose
    [getTime()] is NaN. *)
Definition DateParse (h : DateHost) (s : string) : option Z :=
  match parse_iso s with
  | Some t => TimeClip t
  | None =>
      match legacy_parse h s with
      | Some t => TimeClip t
      | None => None
      end
  end.

Definition LocalTime (h : DateHost) (t : Z) : Z := t + LocalTZA h t.

Definition getFullYear (h : DateHost) (t : Z) : Z := YearFromTime (LocalTime h t).
Definition getMonth (h : DateHost) (t : Z) : Z := MonthFromTime (LocalTime h t).

End JsDate.

Import JsDate.

(** ** Numbers

    A script number is a binary64 floating-point number, [spec_float] with a
    mantissa of 53 bits.  [toString] and [toFixed] follow the language
    specification on the exact value of the number. *)

Module JsNumber.

Local Open Scope string_scope.

Definition number : Type := spec_float.

Definition prec : Z := 53.
Definition emax : Z := 1024.

(** The number denoted by an integer, rounded to nearest if it needs more
    than 53 bits. *)
Definition of_Z (z : Z) : number := binary_normalize prec emax z 0 false.

(** Division of two numbers, correctly rounded. *)
Definition div (x y : number) : number := SFdiv prec emax x y.

(** The real number [m * 2 ^ e]. *)
Definition magnitude (m : positive) (e : Z) : Q :=
  (inject_Z (Zpos m) * Qpower (inject_Z 2) e)%Q.

Definition ten_to (q : Z) : Q := Qpower (inject_Z 10) q.

(** Decimal digits of a non-negative integer, ["0"] for zero. *)
Definition decimal (n : Z) : string := NilZero.string_of_uint (N.to_uint (Z.to_N n)).

Fixpoint zeros (k : nat) : string :=
  match k with
  | O => EmptyString
  | S k' => String "0" (zeros k')
  end.

(** *** [Number::toString]

    The shortest decimal [s * 10 ^ (n - k)], with [k] digits in [s], that
    reads back as the number; among several, the closest to it, then the even
    one. *)

(** Bounds of the reals that round to the binary64 number [m * 2 ^ e], for
    [m], [e] in canonical form, and whether the bounds themselves do. *)
Definition rounding_interval (m : positive) (e : Z) : Q * Q * bool :=
  let hi := magnitude (2 * m + 1) (e - 1) in
  let lo :=
    if ((Zpos m =? 2 ^ (prec - 1)) && (3 - emax - prec <? e))%Z
    then magnitude (4 * m - 1) (e - 2)
    else magnitude (2 * m - 1) (e - 1) in
  (lo, hi, Z.even (Zpos m)).

Definition rounds_to (m : positive) (e : Z) (v : Q) : bool :=
  let '(lo, hi, closed) := rounding_interval m e in
  if closed then Qle_bool lo v && Qle_bool v hi
  else negb (Qle_bool v lo) && negb (Qle_bool hi v).

(** Candidates [(s, q)] on [k] digits: values [s * 10 ^ q] next to [x]. *)
Definition candidates (m : positive) (e : Z) (k : Z) : list (Z * Z) :=
  let x := magnitude m e in
  let est := ((Z.log2 (Zpos m) + e) * 30103) / 100000 in
  flat_map
    (fun q =>
       let s0 := Qfloor (x / ten_to q)%Q in
       filter
         (fun '(s, q) =>
            ((10 ^ (k - 1) <=? s) && (s <? 10 ^ k))%Z
            && rounds_to m e (inject_Z s * ten_to q)%Q)
         [(s0, q); (s0 + 1, q)])
    [est - k - 1; est - k; est - k + 1; est - k + 2; est - k + 3].

Definition distance (x : Q) (c : Z * Z) : Q :=
  Qabs (inject_Z (fst c) * ten_to (snd c) - x)%Q.

Definition better (x : Q) (c best : Z * Z) : bool :=
  match Qcompare (distance x c) (distance x best) with
  | Lt => true
  | Eq => Z.even (fst c) && negb (Z.even (fst best))
  | Gt => false
  end.

Definition closest (x : Q) (cs : list (Z * Z)) : option (Z * Z) :=
  fold_left
    (fun best c =>
       match best with
       | None => Some c
       | Some b => if better x c b then Some c else Some b
       end)
    cs None.

(** Digits [s], their number [k], and the exponent [n]. *)
Fixpoint shortest (fuel : nat) (m : positive) (e : Z) (k : Z) : Z * Z * Z :=
  match closest (magnitude m e) (candidates m e k) with
  | Some (s, q) => (s, k, q + k)
  | None =>
      match fuel with
      | O => (0, 1, 1)
      | S fuel' => shortest fuel' m e (k + 1)
      end
  end.

Definition exponent_part (n : Z) : string :=
  "e" ++ (if (n - 1 <? 0)%Z then "-" else "+") ++ decimal (Z.abs (n - 1)).

Definition toString_positive (m : positive) (e : Z) : string :=
  let '(s, k, n) := shortest 17 m e 1 in
  let digits := decimal s in
  if ((k <=? n) && (n <=? 21))%Z then
    digits ++ zeros (Z.to_nat (n - k))
  else if ((0 <? n) && (n <=? 21))%Z then
    substring 0 (Z.to_nat n) digits ++ "." ++
    substring (Z.to_nat n) (Z.to_nat (k - n)) digits
  else if ((-6 <? n) && (n <=? 0))%Z then
    "0." ++ zeros (Z.to_nat (- n)) ++ digits
  else if (k =? 1)%Z then
    digits ++ exponent_part n
  else
    substring 0 1 digits ++ "." ++ substring 1 (Z.to_nat (k - 1)) digits ++
    exponent_part n.

(** Mantissa and exponent in canonical form. *)
Definition canonical (m : positive) (e : Z) : positive * Z :=
  match binary_round prec emax false m e with
  | S754_finite _ m' e' => (m', e')
  | _ => (m, e)
  end.

Definition toString (x : number) : string :=
  match x with
  | S754_nan => "NaN"
  | S754_zero _ => "0"
  | S754_infinity s => if s then "-Infinity" else "Infinity"
  | S754_finite s m e =>
      let '(m', e') := canonical m e in
      (if s then "-" else "") ++ toString_positive m' e'
  end.

(** *** [Number.prototype.toFixed] *)

(** The digits of [n], with a point before the last [f] of them. *)
Definition fixed_point (f : nat) (n : Z) : string :=
  let m := decimal n in
  match f with
  | O => m
  | _ =>
      let k := String.length m in
      let m := if (k <=? f)%nat then zeros (f + 1 - k) ++ m else m in
      let k := String.length m in
      substring 0 (k - f) m ++ "." ++ substring (k - f) f m
  end.

(** The integer [n] for which [n / 10 ^ f] is closest to [x], the larger of
    two. *)
Definition scaled_round (f : nat) (x : Q) : Z :=
  Qfloor (x * ten_to (Z.of_nat f) + (1 # 2))%Q.

Definition toFixed (f : nat) (x : number) : string :=
  match x with
  | S754_nan | S754_infinity _ => toString x
  | S754_zero _ => fixed_point f 0
  | S754_finite s m e =>
      (if s then "-" else "") ++
      (if Qle_bool (ten_to 21) (magnitude m e)
       then toString (S754_finite false m e)
       else fixed_point f (scaled_round f (magnitude m e)))
  end.

End JsNumber.

Import JsNumber.

(** ** Values

    What [response.json()] yields is a JSON value; [VUndefined] is what
    reading a missing property gives.  Conversions follow the language
    specification for values of this kind, which have no methods of their
    own. *)

Module JsValue.

Local Open Scope string_scope.

#[warnings="-register-all"]
Inductive value :=
| VUndefined
| VNull
| VBool (b : bool)
| VNumber (x : number)
| VString (s : string)
| VArray (items : list value)
| VObject (props : list (string * value)).

(** What the engine throws a [TypeError] or a [DOMException] for. *)
Inductive Fault :=
| NullishProperty (key : string)
| NotCallable (key : string)
| NotPrimitive
| EmptyToken
| TokenWithSpace (token : string).

Inductive Try (A : Type) :=
| Done (a : A)
| Faulted (f : Fault).

Arguments Done {A} a.
Arguments Faulted {A} f.

Fixpoint lookup (key : string) (props : list (string * value)) : value :=
  match props with
  | [] => VUndefined
  | (k, v) :: rest => if k =? key then v else lookup key rest
  end.

Definition has_key (key : string) (props : list (string * value)) : bool :=
  existsb (fun p => fst p =? key) props.

(** [v.key], for the property names this script reads: none of them is a
    property of a built-in prototype. *)
Definition Get (v : value) (key : string) : Try value :=
  match v with
  | VUndefined | VNull => Faulted (NullishProperty key)
  | VObject props => Done (lookup key props)
  | _ => Done VUndefined
  end.

Definition ToBoolean (v : value) : bool :=
  match v with
  | VUndefined | VNull => false
  | VBool b => b
  | VNumber (S754_zero _) | VNumber S754_nan => false
  | VNumber _ => true
  | VString s => negb (s =? "")
  | VArray _ | VObject _ => true
  end.

(** [ToString]: an array joins its elements with commas, an absent one
    counting as empty; a plain object reads ["[object Object]"], unless a
    property of its own hides the [toString] method, and then it converts
    to nothing. *)
Fixpoint ToString (v : value) : Try string :=
  match v with
  | VUndefined => Done "undefined"
  | VNull => Done "null"
  | VBool b => Done (if b then "true" else "false")
  | VNumber x => Done (toString x)
  | VString s => Done s
  | VArray items =>
      (fix join (l : list value) (sep : string) : Try string :=
         match l with
         | [] => Done ""
         | x :: rest =>
             match
               match x with
               | VUndefined | VNull => Done ""
               | _ => ToString x
               end
             with
             | Faulted f => Faulted f
             | Done sx =>
                 match join rest "," with
                 | Faulted f => Faulted f
                 | Done sr => Done (sep ++ sx ++ sr)
                 end
             end
         end) items ""
  | VObject props =>
      if has_key "toString" props then Faulted NotPrimitive
      else Done "[object Object]"
  end.

(** Conversion for a nullable [DOMString] attribute such as [textContent]. *)
Definition ToDOMString (v : value) : Try string :=
  match v with
  | VUndefined | VNull => Done ""
  | _ => ToString v
  end.

(** [v.toLowerCase()], given the case mapping. *)
Definition call_toLowerCase (lower : string -> string) (v : value) : Try string :=
  match v with
  | VUndefined | VNull => Faulted (NullishProperty "toLowerCase")
  | VString s => Done (lower s)
  | _ => Faulted (NotCallable "toLowerCase")
  end.

(** [v.toFixed(f)] *)
Definition call_toFixed (f : nat) (v : value) : Try string :=
  match v with
  | VUndefined | VNull => Faulted (NullishProperty "toFixed")
  | VNumber x => Done (toFixed f x)
  | _ => Faulted (NotCallable "toFixed")
  end.

End JsValue.

Import JsValue.
(** ** Errors

    The script throws [new Error(message)].  An error is modelled by its
    message together with a tag naming the throw site after the error
    taxonomy of the specification; the tag is not data the script has. *)

Inductive ErrorKind :=
| InvalidDate
| NonFutureTarget
| MissingHorizon
| MissingScenario
| RemoteRejection
| TransportFailure
| HostFault.

Record JsError := mkError { kind : ErrorKind; message : string }.

Inductive Completion (A : Type) :=
| Normal (a : A)
| Throw (e : JsError).

Arguments Normal {A} a.
Arguments Throw {A} e.

(** ** The page and the network

    The state the submit listener works on: the values of the form controls,
    the attributes of the elements the script writes, and, outside the page,
    the requests issued and the console. *)

Module Dom.

Local Open Scope string_scope.

(** *** Class lists *)

Definition contains (token : string) (l : list string) : bool :=
  existsb (String.eqb token) l.

Definition remove (token : string) (l : list string) : list string :=
  filter (fun t => negb (token =? t)) l.

Definition is_ascii_whitespace (c : ascii) : bool :=
  match N_of_ascii c with
  | 9%N | 10%N | 12%N | 13%N | 32%N => true
  | _ => false
  end.

Fixpoint has_whitespace (s : string) : bool :=
  match s with
  | EmptyString => false
  | String c r => is_ascii_whitespace c || has_whitespace r
  end.

(** A class list is a set: a token it has is not added again. *)
Definition insert (token : string) (l : list string) : list string :=
  if contains token l then l else (l ++ [token])%list.

(** [classList.add(token)]: refuses the empty token and tokens with
    whitespace. *)
Definition add (token : string) (l : list string) : Try (list string) :=
  if token =? "" then Faulted EmptyToken
  else if has_whitespace token then Faulted (TokenWithSpace token)
  else Done (insert token l).

(** *** Table rows

    A row is kept as the eight strings the script puts into its markup. *)

Record Row := mkRow {
  fecha_text : string;
  nivel_text : string;
  situacionClase : string;
  situacion_text : string;
  sequiaClase : string;
  sequia_text : string;
  bajoclase : string;
  bajo_text : string
}.

Definition quote : string := String "034"%char EmptyString.

(** The markup assigned to [fila.innerHTML]. *)
Definition innerHTML (r : Row) : string :=
  "
            <td>" ++ fecha_text r ++ "</td>
            <td>" ++ nivel_text r ++ "</td>
            <td class=" ++ quote ++ situacionClase r ++ quote ++ ">" ++ situacion_text r ++ "</td>
            <td class=" ++ quote ++ sequiaClase r ++ quote ++ ">" ++ sequia_text r ++ "</td>
            <td class=" ++ quote ++ bajoclase r ++ quote ++ ">" ++ bajo_text r ++ "</td>
        ".

(** *** Requests and responses *)

Record Payload := mkPayload {
  horizonte_meses : number;
  escenario : string;
  nivel_actual_usuario : option number
}.

(** The [body] is kept as the payload it serialises. *)
Record Request := mkRequest {
  url : string;
  method : string;
  headers : list (string * string);
  body : Payload
}.

(** What [response.json()] settles to: a value, or a rejection with the
    engine's message. *)
Inductive Body :=
| Json (v : value)
| NotJson (reason : string).

Record Response := mkResponse { ok : bool; json : Body }.

(** What [fetch] settles to: a response, or a rejection with the engine's
    message. *)
Inductive FetchOutcome :=
| Responded (r : Response)
| NetworkFailure (reason : string).

Record World := mkWorld {
  (** the form controls the script reads *)
  horizonte_value : string;
  escenario_value : string;
  nivelUsuario_value : string;
  fechaObjetivo_value : string;
  (** the elements it writes *)
  calcularBtn_disabled : bool;
  calcularBtn_textContent : string;
  resultsSection_classList : list string;
  errorMessage_classList : list string;
  errorMessage_textContent : string;
  riesgoBox_classList : list string;
  riesgoGlobal_textContent : string;
  sequiaInfo_textContent : string;
  prediccionTbody_rows : list Row;
  (** the calls issued with [fetch], oldest first, and the console *)
  requests : list Request;
  console : list JsError
}.

Definition set_calcularBtn_disabled (x : bool) (w : World) : World :=
  {| horizonte_value := horizonte_value w; escenario_value :=
     escenario_value w; nivelUsuario_value := nivelUsuario_value w;
     fechaObjetivo_value := fechaObjetivo_value w; calcularBtn_disabled :=
     x; calcularBtn_textContent := calcularBtn_textContent w;
     resultsSection_classList := resultsSection_classList w;
     errorMessage_classList := errorMessage_classList w;
     errorMessage_textContent := errorMessage_textContent w;
     riesgoBox_classList := riesgoBox_classList w; riesgoGlobal_textContent
     := riesgoGlobal_textContent w; sequiaInfo_textContent :=
     sequiaInfo_textContent w; prediccionTbody_rows := prediccionTbody_rows
     w; requests := requests w; console := console w |}.

Definition set_calcularBtn_textContent (x : string) (w : World) : World :=
  {| horizonte_value := horizonte_value w; escenario_value :=
     escenario_value w; nivelUsuario_value := nivelUsuario_value w;
     fechaObjetivo_value := fechaObjetivo_value w; calcularBtn_disabled :=
     calcularBtn_disabled w; calcularBtn_textContent := x;
     resultsSection_classList := resultsSection_classList w;
     errorMessage_classList := errorMessage_classList w;
     errorMessage_textContent := errorMessage_textContent w;
     riesgoBox_classList := riesgoBox_classList w; riesgoGlobal_textContent
     := riesgoGlobal_textContent w; sequiaInfo_textContent :=
     sequiaInfo_textContent w; prediccionTbody_rows := prediccionTbody_rows
     w; requests := requests w; console := console w |}.

Definition set_resultsSection_classList (x : list string) (w : World) : World :=
  {| horizonte_value := horizonte_value w; escenario_value :=
     escenario_value w; nivelUsuario_value := nivelUsuario_value w;
     fechaObjetivo_value := fechaObjetivo_value w; calcularBtn_disabled :=
     calcularBtn_disabled w; calcularBtn_textContent :=
     calcularBtn_textContent w; resultsSection_classList := x;
     errorMessage_classList := errorMessage_classList w;
     errorMessage_textContent := errorMessage_textContent w;
     riesgoBox_classList := riesgoBox_classList w; riesgoGlobal_textContent
     := riesgoGlobal_textContent w; sequiaInfo_textContent :=
     sequiaInfo_textContent w; prediccionTbody_rows := prediccionTbody_rows
     w; requests := requests w; console := console w |}.

Definition set_errorMessage_classList (x : list string) (w : World) : World :=
  {| horizonte_value := horizonte_value w; escenario_value :=
     escenario_value w; nivelUsuario_value := nivelUsuario_value w;
     fechaObjetivo_value := fechaObjetivo_value w; calcularBtn_disabled :=
     calcularBtn_disabled w; calcularBtn_textContent :=
     calcularBtn_textContent w; resultsSection_classList :=
     resultsSection_classList w; errorMessage_classList := x;
     errorMessage_textContent := errorMessage_textContent w;
     riesgoBox_classList := riesgoBox_classList w; riesgoGlobal_textContent
     := riesgoGlobal_textContent w; sequiaInfo_textContent :=
     sequiaInfo_textContent w; prediccionTbody_rows := prediccionTbody_rows
     w; requests := requests w; console := console w |}.

Definition set_errorMessage_textContent (x : string) (w : World) : World :=
  {| horizonte_value := horizonte_value w; escenario_value :=
     escenario_value w; nivelUsuario_value := nivelUsuario_value w;
     fechaObjetivo_value := fechaObjetivo_value w; calcularBtn_disabled :=
     calcularBtn_disabled w; calcularBtn_textContent :=
     calcularBtn_textContent w; resultsSection_classList :=
     resultsSection_classList w; errorMessage_classList :=
     errorMessage_classList w; errorMessage_textContent := x;
     riesgoBox_classList := riesgoBox_classList w; riesgoGlobal_textContent
     := riesgoGlobal_textContent w; sequiaInfo_textContent :=
     sequiaInfo_textContent w; prediccionTbody_rows := prediccionTbody_rows
     w; requests := requests w; console := console w |}.

Definition set_riesgoBox_classList (x : list string) (w : World) : World :=
  {| horizonte_value := horizonte_value w; escenario_value :=
     escenario_value w; nivelUsuario_value := nivelUsuario_value w;
     fechaObjetivo_value := fechaObjetivo_value w; calcularBtn_disabled :=
     calcularBtn_disabled w; calcularBtn_textContent :=
     calcularBtn_textContent w; resultsSection_classList :=
     resultsSection_classList w; errorMessage_classList :=
     errorMessage_classList w; errorMessage_textContent :=
     errorMessage_textContent w; riesgoBox_classList := x;
     riesgoGlobal_textContent := riesgoGlobal_textContent w;
     sequiaInfo_textContent := sequiaInfo_textContent w;
     prediccionTbody_rows := prediccionTbody_rows w; requests := requests w;
     console := console w |}.

Definition set_riesgoGlobal_textContent (x : string) (w : World) : World :=
  {| horizonte_value := horizonte_value w; escenario_value :=
     escenario_value w; nivelUsuario_value := nivelUsuario_value w;
     fechaObjetivo_value := fechaObjetivo_value w; calcularBtn_disabled :=
     calcularBtn_disabled w; calcularBtn_textContent :=
     calcularBtn_textContent w; resultsSection_classList :=
     resultsSection_classList w; errorMessage_classList :=
     errorMessage_classList w; errorMessage_textContent :=
     errorMessage_textContent w; riesgoBox_classList := riesgoBox_classList
     w; riesgoGlobal_textContent := x; sequiaInfo_textContent :=
     sequiaInfo_textContent w; prediccionTbody_rows := prediccionTbody_rows
     w; requests := requests w; console := console w |}.

Definition set_sequiaInfo_textContent (x : string) (w : World) : World :=
  {| horizonte_value := horizonte_value w; escenario_value :=
     escenario_value w; nivelUsuario_value := nivelUsuario_value w;
     fechaObjetivo_value := fechaObjetivo_value w; calcularBtn_disabled :=
     calcularBtn_disabled w; calcularBtn_textContent :=
     calcularBtn_textContent w; resultsSection_classList :=
     resultsSection_classList w; errorMessage_classList :=
     errorMessage_classList w; errorMessage_textContent :=
     errorMessage_textContent w; riesgoBox_classList := riesgoBox_classList
     w; riesgoGlobal_textContent := riesgoGlobal_textContent w;
     sequiaInfo_textContent := x; prediccionTbody_rows :=
     prediccionTbody_rows w; requests := requests w; console := console w |}.

Definition set_prediccionTbody_rows (x : list Row) (w : World) : World :=
  {| horizonte_value := horizonte_value w; escenario_value :=
     escenario_value w; nivelUsuario_value := nivelUsuario_value w;
     fechaObjetivo_value := fechaObjetivo_value w; calcularBtn_disabled :=
     calcularBtn_disabled w; calcularBtn_textContent :=
     calcularBtn_textContent w; resultsSection_classList :=
     resultsSection_classList w; errorMessage_classList :=
     errorMessage_classList w; errorMessage_textContent :=
     errorMessage_textContent w; riesgoBox_classList := riesgoBox_classList
     w; riesgoGlobal_textContent := riesgoGlobal_textContent w;
     sequiaInfo_textContent := sequiaInfo_textContent w;
     prediccionTbody_rows := x; requests := requests w; console := console w |}.

Definition set_requests (x : list Request) (w : World) : World :=
  {| horizonte_value := horizonte_value w; escenario_value :=
     escenario_value w; nivelUsuario_value := nivelUsuario_value w;
     fechaObjetivo_value := fechaObjetivo_value w; calcularBtn_disabled :=
     calcularBtn_disabled w; calcularBtn_textContent :=
     calcularBtn_textContent w; resultsSection_classList :=
     resultsSection_classList w; errorMessage_classList :=
     errorMessage_classList w; errorMessage_textContent :=
     errorMessage_textContent w; riesgoBox_classList := riesgoBox_classList
     w; riesgoGlobal_textContent := riesgoGlobal_textContent w;
     sequiaInfo_textContent := sequiaInfo_textContent w;
     prediccionTbody_rows := prediccionTbody_rows w; requests := x; console
     := console w |}.

Definition set_console (x : list JsError) (w : World) : World :=
  {| horizonte_value := horizonte_value w; escenario_value :=
     escenario_value w; nivelUsuario_value := nivelUsuario_value w;
     fechaObjetivo_value := fechaObjetivo_value w; calcularBtn_disabled :=
     calcularBtn_disabled w; calcularBtn_textContent :=
     calcularBtn_textContent w; resultsSection_classList :=
     resultsSection_classList w; errorMessage_classList :=
     errorMessage_classList w; errorMessage_textContent :=
     errorMessage_textContent w; riesgoBox_classList := riesgoBox_classList
     w; riesgoGlobal_textContent := riesgoGlobal_textContent w;
     sequiaInfo_textContent := sequiaInfo_textContent w;
     prediccionTbody_rows := prediccionTbody_rows w; requests := requests w;
     console := x |}.

Definition visible (l : list string) : bool := contains "visible" l.

End Dom.

Import Dom.

(** ** The browser

    What the script takes from its host and this development leaves open:
    the clock and date heuristics, a few library functions whose results only
    travel into the request, the wording of the engine's own errors, and the
    backend behind [fetch]. *)

Record Browser := {
  date_host : DateHost;
  trim : string -> string;
  parseFloat : string -> number;
  parseInt : string -> Z -> number;
  toLowerCase : string -> string;
  fault_text : Fault -> string;
  fetch : Request -> FetchOutcome
}.
(** ** The month-count calculator *)

Module Script.

Local Open Scope string_scope.

Definition BACKEND_URL : string := "http://127.0.0.1:8000".
Definition LAST_DATA_DATE : string := "2021-03-01".

Definition calcularMesesHastaFecha (h : DateHost)
    (fechaObjetivoISO ultimaFechaISO : string) : Completion Z :=
  let fechaObjetivoStr :=
    if includes "-" fechaObjetivoISO && (String.length fechaObjetivoISO =? 7)%nat
    then fechaObjetivoISO ++ "-01"
    else fechaObjetivoISO in
  let fechaObjetivo := DateParse h (fechaObjetivoStr ++ "T00:00:00Z") in
  let ultimaFecha := DateParse h (ultimaFechaISO ++ "T00:00:00Z") in
  match fechaObjetivo, ultimaFecha with
  | Some fechaObjetivo, Some ultimaFecha =>
      if (fechaObjetivo <=? ultimaFecha)%Z then
        Throw (mkError NonFutureTarget
                 ("La fecha objetivo (" ++ fechaObjetivoISO ++
                  ") debe ser posterior a la última fecha disponible (marzo 2021)."))
      else
        let años := getFullYear h fechaObjetivo - getFullYear h ultimaFecha in
        let meses := getMonth h fechaObjetivo - getMonth h ultimaFecha in
        let mesesTotales := años * 12 + meses in
        Normal mesesTotales
  | _, _ => Throw (mkError InvalidDate "Las fechas no son válidas.")
  end.

(** *** Computations on the page that may throw *)

Definition M (A : Type) : Type := World -> Completion A * World.

Definition ret {A} (a : A) : M A := fun w => (Normal a, w).

Definition bind {A B} (c : M A) (k : A -> M B) : M B :=
  fun w =>
    match c w with
    | (Normal a, w') => k a w'
    | (Throw e, w') => (Throw e, w')
    end.

Definition throw {A} (e : JsError) : M A := fun w => (Throw e, w).

Definition gets {A} (f : World -> A) : M A := fun w => (Normal (f w), w).

Definition modify (f : World -> World) : M unit := fun w => (Normal tt, f w).

Definition lift {A} (c : Completion A) : M A := fun w => (c, w).

Notation "x <- c ;; k" := (bind c (fun x => k))
  (at level 61, c at next level, right associativity).
Notation "c ;; k" := (bind c (fun _ => k))
  (at level 61, right associativity).

Section Listener.

Variable b : Browser.

(** A fault of the engine surfaces as a thrown error with the engine's
    wording. *)
Definition try {A} (t : Try A) : M A :=
  match t with
  | Done a => ret a
  | Faulted f => throw (mkError HostFault (fault_text b f))
  end.

(** Función para mostrar errores *)
Definition mostrarError (mensaje : string) (w : World) : World :=
  let w := set_errorMessage_textContent ("❌ " ++ mensaje) w in
  let w := set_errorMessage_classList
             (insert "visible" (errorMessage_classList w)) w in
  let w := set_resultsSection_classList
             (remove "visible" (resultsSection_classList w)) w in
  set_prediccionTbody_rows [] w.

(** The body of the [forEach] callback, up to the row it appends. *)
Definition fila (mes : value) : Try Row :=
  match Get mes "es_sequia" with
  | Faulted f => Faulted f
  | Done es_sequia =>
  match Get mes "es_nivel_bajo" with
  | Faulted f => Faulted f
  | Done es_nivel_bajo =>
      let situacionClase :=
        if ToBoolean es_sequia then "situacion-sequia"
        else if ToBoolean es_nivel_bajo then "situacion-bajo"
        else "situacion-normal" in
      let sequiaClase := if ToBoolean es_sequia then "boolean-true" else "boolean-false" in
      let bajoclase := if ToBoolean es_nivel_bajo then "boolean-true" else "boolean-false" in
      match Get mes "fecha" with
      | Faulted f => Faulted f
      | Done fecha =>
      match ToString fecha with
      | Faulted f => Faulted f
      | Done fecha =>
      match Get mes "nivel" with
      | Faulted f => Faulted f
      | Done nivel =>
      match call_toFixed 2 nivel with
      | Faulted f => Faulted f
      | Done nivel =>
      match Get mes "situacion" with
      | Faulted f => Faulted f
      | Done situacion =>
      match ToString situacion with
      | Faulted f => Faulted f
      | Done situacion =>
          Done {| fecha_text := fecha;
                  nivel_text := nivel;
                  situacionClase := situacionClase;
                  situacion_text := situacion;
                  sequiaClase := sequiaClase;
                  sequia_text := if ToBoolean es_sequia then "Sí" else "No";
                  bajoclase := bajoclase;
                  bajo_text := if ToBoolean es_nivel_bajo then "Sí" else "No" |}
      end end end end end end
  end end.

(** [array.forEach]: one row appended per element, in order, until one
    throws. *)
Fixpoint forEach_fila (items : list value) : M unit :=
  match items with
  | [] => ret tt
  | mes :: rest =>
      r <- try (fila mes) ;;
      modify (fun w => set_prediccionTbody_rows (prediccionTbody_rows w ++ [r])%list w) ;;
      forEach_fila rest
  end.

(** Función para mostrar resultados *)
Definition mostrarResultados (resultado : value) : M unit :=
  modify (fun w => set_resultsSection_classList
                     (insert "visible" (resultsSection_classList w)) w) ;;
  riesgo_global <- try (Get resultado "riesgo_global") ;;
  texto <- try (ToDOMString riesgo_global) ;;
  modify (set_riesgoGlobal_textContent texto) ;;
  modify (set_riesgoBox_classList ["riesgo-box"]) ;;
  riesgoLower <- try (call_toLowerCase (toLowerCase b) riesgo_global) ;;
  clases <- gets riesgoBox_classList ;;
  clases <- try (add riesgoLower clases) ;;
  modify (set_riesgoBox_classList clases) ;;
  sequia_probable <- try (Get resultado "sequia_probable") ;;
  let sequiaMensaje :=
    if ToBoolean sequia_probable
    then "⚠️ Sequía probable en el período"
    else "✓ Sin sequía probable en el período" in
  modify (set_sequiaInfo_textContent sequiaMensaje) ;;
  modify (set_prediccionTbody_rows []) ;;
  prediccion_mensual <- try (Get resultado "prediccion_mensual") ;;
  match prediccion_mensual with
  | VArray items => forEach_fila items
  | VUndefined | VNull => try (Faulted (NullishProperty "forEach"))
  | _ => try (Faulted (NotCallable "forEach"))
  end.

(** [await fetch(...)]: the request leaves, and the call settles. *)
Definition await_fetch (req : Request) : M Response :=
  modify (fun w => set_requests (requests w ++ [req])%list w) ;;
  match fetch b req with
  | Responded r => ret r
  | NetworkFailure reason => throw (mkError TransportFailure reason)
  end.

(** [await response.json()] *)
Definition await_json (r : Response) : M value :=
  match json r with
  | Json v => ret v
  | NotJson reason => throw (mkError TransportFailure reason)
  end.

(** The [try] block of the listener. *)
Definition try_block : M unit :=
  escenarioValor <- gets escenario_value ;;
  nivelUsuario <- gets nivelUsuario_value ;;
  let nivelActual :=
    if trim b nivelUsuario =? "" then None else Some (parseFloat b nivelUsuario) in
  fechaObjetivo <- gets fechaObjetivo_value ;;
  horizonte <- gets horizonte_value ;;
  horizonteMeses <-
    (if negb (fechaObjetivo =? "") then
       meses <- lift (calcularMesesHastaFecha (date_host b) fechaObjetivo LAST_DATA_DATE) ;;
       ret (of_Z meses)
     else if negb (horizonte =? "") then
       ret (parseInt b horizonte 10)
     else
       throw (mkError MissingHorizon
                "Por favor selecciona un horizonte de meses o una fecha objetivo.")) ;;
  (if escenarioValor =? "" then
     throw (mkError MissingScenario "Por favor selecciona un escenario climático.")
   else ret tt) ;;
  let payload :=
    {| horizonte_meses := horizonteMeses;
       escenario := escenarioValor;
       nivel_actual_usuario := nivelActual |} in
  response <- await_fetch
    {| url := BACKEND_URL ++ "/predict";
       method := "POST";
       headers := [("Content-Type", "application/json")];
       body := payload |} ;;
  if negb (ok response) then
    errorData <- await_json response ;;
    detail <- try (Get errorData "detail") ;;
    mensaje <- (if ToBoolean detail then try (ToString detail)
                else ret "Error en la predicción.") ;;
    throw (mkError RemoteRejection mensaje)
  else
    resultado <- await_json response ;;
    mostrarResultados resultado.

(** Event listener del formulario: one submission, from the event to the
    end of the [finally] block.  ([e.preventDefault()] only keeps the browser
    from navigating and leaves no trace here; the two [await]s are the points
    where the request and the body settle.) *)
Definition submit_listener (w : World) : World :=
  let w := set_calcularBtn_disabled true w in
  let w := set_calcularBtn_textContent "Calculando..." w in
  let w := set_errorMessage_classList (remove "visible" (errorMessage_classList w)) w in
  let w := set_resultsSection_classList (remove "visible" (resultsSection_classList w)) w in
  let '(completion, w) := try_block w in
  let w :=
    match completion with
    | Normal _ => w
    | Throw error => mostrarError (message error) (set_console (console w ++ [error])%list w)
    end in
  let w := set_calcularBtn_disabled false w in
  set_calcularBtn_textContent "Calcular riesgo de sequía" w.

End Listener.

End Script.

Import Script.
(** ** Sample hosts

    Two clocks to run the script on: one whose local time is UTC, one five
    hours behind it (UTC-05:00).  Neither parses anything beyond the standard
    format. *)
Definition host_utc : DateHost :=
  {| LocalTZA := fun _ => 0; legacy_parse := fun _ => None |}.

Definition host_utc_minus_5 : DateHost :=
  {| LocalTZA := fun _ => - 5 * msPerHour; legacy_parse := fun _ => None |}.

(** A sample browser around a clock and a backend.  Its library functions
    are the ASCII ones, and its number readers take a sign and digits only,
    which is what [parseInt] does and what [parseFloat] does on such
    strings. *)
Module Sample.

Local Open Scope string_scope.

Fixpoint trim_start (s : string) : string :=
  match s with
  | String c r => if is_ascii_whitespace c then trim_start r else s
  | EmptyString => s
  end.

Fixpoint reverse (s acc : string) : string :=
  match s with
  | String c r => reverse r (String c acc)
  | EmptyString => acc
  end.

Definition ascii_trim (s : string) : string :=
  reverse (trim_start (reverse (trim_start s) "")) "".

Definition lower_char (c : ascii) : ascii :=
  let n := N_of_ascii c in
  if ((65 <=? n) && (n <=? 90))%N then ascii_of_N (n + 32) else c.

Fixpoint ascii_lower (s : string) : string :=
  match s with
  | String c r => String (lower_char c) (ascii_lower r)
  | EmptyString => s
  end.

Fixpoint digits_prefix (s : string) (acc : option Z) : option Z :=
  match s with
  | String c r =>
      match digit_value c with
      | Some v => digits_prefix r (Some (match acc with Some a => a * 10 + v | None => v end)%Z)
      | None => acc
      end
  | EmptyString => acc
  end.

Definition read_integer (s : string) : number :=
  let s := trim_start s in
  let '(negative, s) :=
    match s with
    | String "-"%char r => (true, r)
    | String "+"%char r => (false, r)
    | _ => (false, s)
    end in
  match digits_prefix s None with
  | Some n =>
      if (n =? 0)%Z then S754_zero negative
      else of_Z (if negative then - n else n)
  | None => S754_nan
  end.

Definition engine_text (f : Fault) : string :=
  match f with
  | NullishProperty key => "Cannot read properties of undefined (reading '" ++ key ++ "')"
  | NotCallable key => key ++ " is not a function"
  | NotPrimitive => "Cannot convert object to primitive value"
  | EmptyToken => "The token provided must not be empty."
  | TokenWithSpace token => "The token provided ('" ++ token ++ "') contains HTML space characters, which are not valid in tokens."
  end.

Definition browser (clock : DateHost) (backend : Request -> FetchOutcome) : Browser :=
  {| date_host := clock;
     trim := ascii_trim;
     parseFloat := read_integer;
     parseInt := fun s _ => read_integer s;
     toLowerCase := ascii_lower;
     fault_text := engine_text;
     fetch := backend |}.

(** The page before a submission: nothing shown, the button at rest. *)
Definition page (horizonte escenario nivelUsuario fechaObjetivo : string) : World :=
  {| horizonte_value := horizonte;
     escenario_value := escenario;
     nivelUsuario_value := nivelUsuario;
     fechaObjetivo_value := fechaObjetivo;
     calcularBtn_disabled := false;
     calcularBtn_textContent := "Calcular riesgo de sequía";
     resultsSection_classList := ["results-section"];
     errorMessage_classList := ["error-message"];
     errorMessage_textContent := "";
     riesgoBox_classList := ["riesgo-box"];
     riesgoGlobal_textContent := "";
     sequiaInfo_textContent := "";
     prediccionTbody_rows := [];
     requests := [];
     console := [] |}.

(** A backend that answers every request with one forecast month. *)
Definition entry_2022_05 : value :=
  VObject [("fecha", VString "2022-05");
           ("nivel", VNumber (div (of_Z 12345) (of_Z 1000)));
           ("situacion", VString "Alerta");
           ("es_sequia", VBool true);
           ("es_nivel_bajo", VBool false)].

Definition forecast : value :=
  VObject [("riesgo_global", VString "ALTO");
           ("sequia_probable", VBool true);
           ("prediccion_mensual", VArray [entry_2022_05])].

Definition backend_ok (_ : Request) : FetchOutcome :=
  Responded {| ok := true; json := Json forecast |}.

(** A backend that rejects every request the way the service words it. *)
Definition backend_rejects (_ : Request) : FetchOutcome :=
  Responded {| ok := false; json := Json (VObject [("detail", VString "scenario invalid")]) |}.

Definition backend_down (_ : Request) : FetchOutcome :=
  NetworkFailure "Failed to fetch".

End Sample.
(** ** Calendar dates and their ISO strings

    The statements about "valid dates" range over calendar dates with a year
    of four digits, written the way a date field hands them to the script. *)

Record CalDate := mkDate { year : Z; month : Z; day : Z }.

Definition valid_date (c : CalDate) : bool :=
  (0 <=? year c) && (year c <=? 9999) &&
  (1 <=? month c) && (month c <=? 12) &&
  (1 <=? day c) && (day c <=? DaysInMonth (year c) (month c - 1)).

(** ["YYYY-MM-DD"] *)
Definition iso (c : CalDate) : string :=
  (fixed_digits 4 (year c) ++ "-" ++ fixed_digits 2 (month c) ++ "-" ++
   fixed_digits 2 (day c))%string.


(** Midnight UTC of the date. *)
Definition time_of (c : CalDate) : Z :=
  MakeDate (MakeDay (year c) (month c - 1) (day c)) 0.

(** [later a b]: [a] is a strictly later calendar day than [b]. *)
Definition later (a b : CalDate) : bool :=
  (year b <? year a) ||
  (year a =? year b) &&
    ((month b <? month a) || (month a =? month b) && (day b <? day a)).

(** [later_month a b]: the month of [a] is strictly later than the month of
    [b], days ignored. *)
Definition later_month (a b : CalDate) : bool :=
  (year b <? year a) || (year a =? year b) && (month b <? month a).

(** Hosts whose local time is UTC or ahead of it, by less than a day. *)
Definition east_of_utc (h : DateHost) : Prop :=
  forall t, 0 <= LocalTZA h t < msPerDay.

(** Hosts whose local time is behind UTC, by a day at most. *)
Definition behind_utc (h : DateHost) : Prop :=
  forall t, - msPerDay <= LocalTZA h t < 0.

(** 1 on the first day of a month, else 0. *)
Definition on_first (c : CalDate) : Z := if day c =? 1 then 1 else 0.

(** ** The calculator on calendar dates *)

(** Text of the error raised for a target that is not in the future. *)
Definition non_future_text (fechaObjetivoISO : string) : string :=
  ("La fecha objetivo (" ++ fechaObjetivoISO ++
   ") debe ser posterior a la última fecha disponible (marzo 2021).")%string.

(** The outcome of a call, with the message of an error left out. *)
Definition outcome_kind (r : Completion Z) : Z + ErrorKind :=
  match r with
  | Normal n => inl n
  | Throw e => inr (kind e)
  end.


(** ** Vocabulary of the statements *)

(** *** Forecast months

    A month entry as the backend documents it, and the JSON value that
    carries it. *)

Record MonthEntry := mkEntry {
  fecha : string;
  nivel : number;
  situacion : string;
  es_sequia : bool;
  es_nivel_bajo : bool
}.

Definition entry_value (e : MonthEntry) : value :=
  VObject [("fecha"%string, VString (fecha e));
           ("nivel"%string, VNumber (nivel e));
           ("situacion"%string, VString (situacion e));
           ("es_sequia"%string, VBool (es_sequia e));
           ("es_nivel_bajo"%string, VBool (es_nivel_bajo e))].

(** The three situation classes, by precedence. *)
Definition situation_class (e : MonthEntry) : string :=
  if es_sequia e then "situacion-sequia"%string
  else if es_nivel_bajo e then "situacion-bajo"%string
  else "situacion-normal"%string.

Definition si_no (flag : bool) : string := if flag then "Sí"%string else "No"%string.

(** *** Fixed-point notation *)

Definition is_digit (c : ascii) : bool :=
  match digit_value c with
  | Some _ => true
  | None => false
  end.

Fixpoint all_digits (s : string) : bool :=
  match s with
  | EmptyString => true
  | String c r => is_digit c && all_digits r
  end.

(** Splits at the first point. *)
Fixpoint split_at_point (s : string) : option (string * string) :=
  match s with
  | EmptyString => None
  | String c r =>
      if Ascii.eqb c "."%char then Some (EmptyString, r)
      else match split_at_point r with
           | Some (a, b) => Some (String c a, b)
           | None => None
           end
  end.

(** [has_decimals f s]: [s] is an optional minus sign, at least one digit, a
    point, and exactly [f] digits. *)
Definition has_decimals (f : nat) (s : string) : bool :=
  let unsigned :=
    match s with
    | String c r => if Ascii.eqb c "-"%char then r else s
    | EmptyString => s
    end in
  match split_at_point unsigned with
  | Some (a, b) =>
      negb (a =? "")%string && all_digits a && all_digits b
      && (String.length b =? f)%nat
  | None => false
  end.

(** Numbers that [toFixed] writes in fixed-point notation: the finite ones
    below 10^21 in magnitude. *)
Definition below_1e21 (x : number) : bool :=
  match x with
  | S754_zero _ => true
  | S754_finite _ m e => negb (Qle_bool (ten_to 21) (magnitude m e))
  | S754_infinity _ | S754_nan => false
  end.

(** *** Submissions *)

(** The page when the [try] block starts: the button disabled and working,
    both views hidden. *)
Definition loading (w : World) : World :=
  let w := set_calcularBtn_disabled true w in
  let w := set_calcularBtn_textContent "Calculando..." w in
  let w := set_errorMessage_classList (remove "visible" (errorMessage_classList w)) w in
  set_resultsSection_classList (remove "visible" (resultsSection_classList w)) w.

(** The [finally] block. *)
Definition at_rest (w : World) : World :=
  set_calcularBtn_textContent "Calcular riesgo de sequía"
    (set_calcularBtn_disabled false w).

(** The [catch] block. *)
Definition caught (error : JsError) (w : World) : World :=
  mostrarError (message error) (set_console (console w ++ [error]) w).

(** How the [try] block of a submission completes. *)
Definition completion (b : Browser) (w : World) : Completion unit :=
  fst (try_block b (loading w)).

(** The requests a submission issues. *)
Definition issued (b : Browser) (w : World) : list Request :=
  skipn (List.length (requests w)) (requests (submit_listener b w)).

Definition missing_horizon : JsError :=
  mkError MissingHorizon
    "Por favor selecciona un horizonte de meses o una fecha objetivo.".

Definition missing_scenario : JsError :=
  mkError MissingScenario "Por favor selecciona un escenario climático.".

(** The horizon a submission resolves, from the target date first, else from
    the manual selector. *)
Definition resolve_horizon (b : Browser) (w : World) : Completion number :=
  if negb (fechaObjetivo_value w =? "")%string then
    match calcularMesesHastaFecha (date_host b) (fechaObjetivo_value w) LAST_DATA_DATE with
    | Normal meses => Normal (of_Z meses)
    | Throw e => Throw e
    end
  else if negb (horizonte_value w =? "")%string then
    Normal (parseInt b (horizonte_value w) 10)
  else Throw missing_horizon.

(** The request of a submission with horizon [h]. *)
Definition predict_request (b : Browser) (w : World) (h : number) : Request :=
  {| url := "http://127.0.0.1:8000/predict";
     method := "POST";
     headers := [("Content-Type", "application/json")%string];
     body :=
       {| horizonte_meses := h;
          escenario := escenario_value w;
          nivel_actual_usuario :=
            if (trim b (nivelUsuario_value w) =? "")%string then None
            else Some (parseFloat b (nivelUsuario_value w)) |} |}.

(** The error thrown for a response that is not [ok], with body
    [errorData]. *)
Definition rejection (b : Browser) (errorData : value) : JsError :=
  match Get errorData "detail" with
  | Faulted f => mkError HostFault (fault_text b f)
  | Done detail =>
      if ToBoolean detail then
        match ToString detail with
        | Done mensaje => mkError RemoteRejection mensaje
        | Faulted f => mkError HostFault (fault_text b f)
        end
      else mkError RemoteRejection "Error en la predicción."
  end.

(** The failure of a submission whose scenario is empty: the scenario is
    looked at once the horizon is resolved. *)
Definition failure_with_empty_scenario (b : Browser) (w : World) : JsError :=
  match resolve_horizon b w with
  | Throw e => e
  | Normal _ => missing_scenario
  end.

(** *** Dates in words

    The form in which the script's own message names a date: the month in
    Spanish and the year. *)
Definition month_name (m : Z) : string :=
  match m with
  | 1 => "enero" | 2 => "febrero" | 3 => "marzo" | 4 => "abril"
  | 5 => "mayo" | 6 => "junio" | 7 => "julio" | 8 => "agosto"
  | 9 => "septiembre" | 10 => "octubre" | 11 => "noviembre" | _ => "diciembre"
  end%string.

Definition in_words (c : CalDate) : string :=
  (month_name (month c) ++ " " ++ fixed_digits 4 (year c))%string.

(** *** Frames *)

(** How a computation leaves the page: [keeps R c] when the page after [c]
    is always related by [R] to the page before. *)
Definition keeps {A} (R : World -> World -> Prop) (c : M A) : Prop :=
  forall w, R w (snd (c w)).

(** The banner's classes stay as they are. *)
Definition same_banner (w w' : World) : Prop :=
  errorMessage_classList w' = errorMessage_classList w.

(** The banner's classes stay, and the results section stays visible if it
    was. *)
Definition same_views (w w' : World) : Prop :=
  errorMessage_classList w' = errorMessage_classList w /\
  (visible (resultsSection_classList w) = true ->
   visible (resultsSection_classList w') = true).

(** No request leaves. *)
Definition same_requests (w w' : World) : Prop := requests w' = requests w.

(** *** Forecasts

    A forecast as the backend documents it, the JSON value that carries it,
    and the row the script writes for a month entry. *)

Record Forecast := mkForecast {
  riesgo_global : string;
  sequia_probable : bool;
  prediccion_mensual : list MonthEntry
}.

Definition forecast_value (f : Forecast) : value :=
  VObject [("riesgo_global"%string, VString (riesgo_global f));
           ("sequia_probable"%string, VBool (sequia_probable f));
           ("prediccion_mensual"%string,
            VArray (map entry_value (prediccion_mensual f)))].

Definition row_of (e : MonthEntry) : Row :=
  {| fecha_text := fecha e;
     nivel_text := toFixed 2 (nivel e);
     situacionClase := situation_class e;
     situacion_text := situacion e;
     sequiaClase := if es_sequia e then "boolean-true"%string else "boolean-false"%string;
     sequia_text := si_no (es_sequia e);
     bajoclase := if es_nivel_bajo e then "boolean-true"%string else "boolean-false"%string;
     bajo_text := si_no (es_nivel_bajo e) |}.

Definition drought_line (flag : bool) : string :=
  if flag then "⚠️ Sequía probable en el período"%string
  else "✓ Sin sequía probable en el período"%string.

(** A class name that [classList.add] accepts. *)
Definition valid_token (t : string) : bool :=
  negb (t =? "")%string && negb (has_whitespace t).

(** *** More frames *)

(** The form controls and the console stay as they are. *)
Definition same_form (w w' : World) : Prop :=
  horizonte_value w' = horizonte_value w /\
  escenario_value w' = escenario_value w /\
  nivelUsuario_value w' = nivelUsuario_value w /\
  fechaObjetivo_value w' = fechaObjetivo_value w /\
  console w' = console w.

(** The calendar order of days, spelled out. *)
Definition later_prop (a b : CalDate) : Prop :=
  year b < year a \/
  (year a = year b /\
   (month b < month a \/ (month a = month b /\ day b < day a))).

(** The text of a list of strings joined the way [Array.prototype.join]
    does, each item after the first preceded by [sep]. *)
Fixpoint joined (sep : string) (items : list string) : string :=
  match items with
  | [] => EmptyString
  | x :: rest => (sep ++ x ++ joined "," rest)%string
  end.

(** What the banner shows. *)
Definition shown (b : Browser) (w : World) : string :=
  errorMessage_textContent (submit_listener b w).

(** The page after a forecast is rendered on it. *)
Definition rendered (b : Browser) (f : Forecast) (w : World) : World :=
  set_prediccionTbody_rows (map row_of (prediccion_mensual f))
    (set_sequiaInfo_textContent (drought_line (sequia_probable f))
       (set_riesgoBox_classList
          (insert (toLowerCase b (riesgo_global f)) ["riesgo-box"%string])
          (set_riesgoGlobal_textContent (riesgo_global f)
             (set_resultsSection_classList
                (insert "visible" (resultsSection_classList w)) w)))).

(** The fault of [classList.add] on a token it refuses. *)
Definition token_fault (t : string) : Fault :=
  if (t =? "")%string then EmptyToken else TokenWithSpace t.

(** *** Reading fixed-point notation back *)

(** The string without its first point. *)
Fixpoint without_point (s : string) : string :=
  match s with
  | EmptyString => EmptyString
  | String c r => if Ascii.eqb c "."%char then r else String c (without_point r)
  end.

(** The number a string of decimal digits denotes. *)
Definition digits_number (s : string) : option Z :=
  option_map (fun u => Z.of_N (N.of_uint u)) (NilEmpty.uint_of_string s).

(** *** More sample backends *)

(** A backend that rejects every request with a list of two validation
    errors. *)
Definition backend_invalid (_ : Request) : FetchOutcome :=
  Responded
    {| ok := false;
       json := Json (VObject
                 [("detail"%string,
                   VArray (map VObject
                     [[("msg"%string, VString "field required")];
                      [("msg"%string, VString "value is not a valid integer")]]))]) |}.

(** A backend that answers [null] to every request. *)
Definition backend_null (_ : Request) : FetchOutcome :=
  Responded {| ok := true; json := Json VNull |}.

Definition sample_forecast : Forecast :=
  {| riesgo_global := "ALTO";
     sequia_probable := true;
     prediccion_mensual :=
       [mkEntry "2022-05" (div (of_Z 12345) (of_Z 1000)) "Alerta" true false;
        mkEntry "2022-06" (div (of_Z 705) (of_Z 100)) "Normal" false true] |}.

Definition backend_forecast (_ : Request) : FetchOutcome :=
  Responded {| ok := true; json := Json (forecast_value sample_forecast) |}.

(** The rows [forEach] appends: one for each element, up to the first that
    cannot be rendered. *)
Fixpoint rows_rendered (items : list value) : list Row :=
  match items with
  | [] => []
  | mes :: rest =>
      match fila mes with
      | Done r => r :: rows_rendered rest
      | Faulted _ => []
      end
  end.

(** The rows of an answer: those of its list of months. *)
Definition answer_rows (v : value) : list Row :=
  match Get v "prediccion_mensual" with
  | Done (VArray items) => rows_rendered items
  | _ => []
  end.

(** The four form controls hold the same values. *)
Definition same_inputs (w w' : World) : Prop :=
  horizonte_value w' = horizonte_value w /\
  escenario_value w' = escenario_value w /\
  nivelUsuario_value w' = nivelUsuario_value w /\
  fechaObjetivo_value w' = fechaObjetivo_value w.
Section TimeValueFacts.

Lemma quarter_step (y : Z) :
  (y - 1968) / 4 = (y - 1969) / 4 + (if y mod 4 =? 0 then 1 else 0).
Proof. destruct (Z.eqb_spec (y mod 4) 0); Z.div_mod_to_equations; lia. Qed.

Lemma century_step (y : Z) :
  (y - 1900) / 100 = (y - 1901) / 100 + (if y mod 100 =? 0 then 1 else 0).
Proof. destruct (Z.eqb_spec (y mod 100) 0); Z.div_mod_to_equations; lia. Qed.

Lemma quadricentennial_step (y : Z) :
  (y - 1600) / 400 = (y - 1601) / 400 + (if y mod 400 =? 0 then 1 else 0).
Proof. destruct (Z.eqb_spec (y mod 400) 0); Z.div_mod_to_equations; lia. Qed.

Lemma mod_100_4 (y : Z) : y mod 100 = 0 -> y mod 4 = 0.
Proof. intros; Z.div_mod_to_equations; lia. Qed.

Lemma mod_400_100 (y : Z) : y mod 400 = 0 -> y mod 100 = 0.
Proof. intros; Z.div_mod_to_equations; lia. Qed.

(** Consecutive years are [DaysInYear] apart. *)
Lemma DayFromYear_succ (y : Z) :
  DayFromYear (y + 1) = DayFromYear y + DaysInYear y.
Proof.
  unfold DayFromYear, DaysInYear.
  replace (y + 1 - 1969) with (y - 1968) by lia.
  replace (y + 1 - 1901) with (y - 1900) by lia.
  replace (y + 1 - 1601) with (y - 1600) by lia.
  rewrite quarter_step, century_step, quadricentennial_step.
  pose proof (mod_100_4 y); pose proof (mod_400_100 y).
  destruct (Z.eqb_spec (y mod 4) 0), (Z.eqb_spec (y mod 100) 0),
    (Z.eqb_spec (y mod 400) 0); cbn [negb]; lia.
Qed.

Lemma DaysInYear_range (y : Z) : 365 <= DaysInYear y <= 366.
Proof.
  unfold DaysInYear.
  repeat match goal with
         | |- context [ if ?c then _ else _ ] => destruct c
         end; lia.
Qed.

Lemma DayFromYear_le (y y' : Z) : y <= y' -> DayFromYear y <= DayFromYear y'.
Proof. unfold DayFromYear; intros; Z.div_mod_to_equations; lia. Qed.

Lemma DayFromYear_lt (y y' : Z) : y < y' -> DayFromYear y < DayFromYear y'.
Proof. unfold DayFromYear; intros; Z.div_mod_to_equations; lia. Qed.

(** The estimate-and-correct computation meets the specification of
    [YearFromTime]: the year found starts on or before the day of [t], and
    the next year starts after it. *)
Lemma YearFromTime_spec (t : Z) :
  DayFromYear (YearFromTime t) <= Day t < DayFromYear (YearFromTime t + 1).
Proof.
  unfold YearFromTime.
  set (d := Day t). set (y := 1970 + 400 * d / 146097).
  assert (Hlo : DayFromYear (y - 1) <= d)
    by (unfold DayFromYear, y; Z.div_mod_to_equations; lia).
  assert (Hhi : d < DayFromYear (y + 2))
    by (unfold DayFromYear, y; Z.div_mod_to_equations; lia).
  destruct (Z.leb_spec (DayFromYear (y + 1)) d).
  - replace (y + 1 + 1) with (y + 2) by lia; lia.
  - destruct (Z.ltb_spec d (DayFromYear y)).
    + replace (y - 1 + 1) with y by lia; lia.
    + lia.
Qed.

(** ... and it is the only such year. *)
Lemma YearFromTime_unique (t y : Z) :
  DayFromYear y <= Day t < DayFromYear (y + 1) -> YearFromTime t = y.
Proof.
  intros [Hlo Hhi]. pose proof (YearFromTime_spec t) as [Slo Shi].
  destruct (Z.lt_trichotomy (YearFromTime t) y) as [Hlt | [Heq | Hgt]]; trivial.
  - pose proof (DayFromYear_le (YearFromTime t + 1) y); lia.
  - pose proof (DayFromYear_le (y + 1) (YearFromTime t)); lia.
Qed.

Lemma YearFromTime_largest (t y : Z) :
  TimeFromYear y <= t <-> y <= YearFromTime t.
Proof.
  pose proof (YearFromTime_spec t) as [Slo Shi].
  assert (Hd : TimeFromYear y <= t <-> DayFromYear y <= Day t).
  { unfold TimeFromYear, Day, msPerDay. split; intros; Z.div_mod_to_equations; lia. }
  rewrite Hd. split; intros H.
  - destruct (Z.le_gt_cases y (YearFromTime t)); trivial.
    pose proof (DayFromYear_le (YearFromTime t + 1) y); lia.
  - pose proof (DayFromYear_le y (YearFromTime t)); lia.
Qed.

End TimeValueFacts.

(** Case analysis on a small non-negative integer: [small_cases n below k]
    leaves one goal for each value of [n] under [k], given that the context
    bounds [n] so. *)
Ltac split_nat i k :=
  lazymatch k with
  | O => exfalso; lia
  | S ?k' => destruct i as [|i]; [simpl Z.of_nat in * | split_nat i k']
  end.

Tactic Notation "small_cases" constr(n) "below" constr(k) :=
  let i := fresh "i" in
  let E := fresh "E" in
  let B := fresh "B" in
  assert (B : 0 <= n) by lia;
  destruct (Z_of_nat_complete n B) as [i E];
  first [ subst n | rewrite E in * ];
  let k' := eval compute in k in split_nat i k'.

(** Case analysis on a month index, and evaluation of the table at it. *)
Ltac month_cases m := small_cases m below 13%nat.

Ltac month_table :=
  repeat match goal with
         | H : context [ ?a + 1 ] |- _ =>
             let v := eval vm_compute in (a + 1) in
             progress change (a + 1) with v in H
         | |- context [ ?a + 1 ] =>
             let v := eval vm_compute in (a + 1) in
             progress change (a + 1) with v
         end;
  unfold DaysBeforeMonth in *.

Section CalendarFacts.

Lemma LeapDays_range (y : Z) : 0 <= LeapDays y <= 1.
Proof. unfold LeapDays; pose proof (DaysInYear_range y); lia. Qed.

Lemma InLeapYear_of_year (t : Z) : InLeapYear t = LeapDays (YearFromTime t).
Proof.
  unfold InLeapYear, LeapDays.
  pose proof (DaysInYear_range (YearFromTime t)).
  destruct (Z.eqb_spec (DaysInYear (YearFromTime t)) 366); lia.
Qed.

Lemma DaysBeforeMonth_year_end (y : Z) :
  DaysBeforeMonth (LeapDays y) 12 = DaysInYear y.
Proof. unfold DaysBeforeMonth, LeapDays; lia. Qed.

Lemma DaysBeforeMonth_mono (leap m m' : Z) :
  0 <= leap <= 1 -> 0 <= m <= m' -> m' <= 12 ->
  DaysBeforeMonth leap m <= DaysBeforeMonth leap m'.
Proof.
  intros Hl Hm Hm'.
  month_cases m; month_cases m'; unfold DaysBeforeMonth; lia.
Qed.

(** A day of month [m] of year [y] lies inside year [y]. *)
Lemma day_in_year (y m d : Z) :
  0 <= m < 12 -> 1 <= d <= DaysInMonth y m ->
  0 <= DaysBeforeMonth (LeapDays y) m + d - 1 < DaysInYear y.
Proof.
  intros Hm Hd. unfold DaysInMonth in Hd.
  pose proof (LeapDays_range y) as Hl.
  pose proof (DaysBeforeMonth_mono (LeapDays y) 0 m Hl ltac:(lia) ltac:(lia)) as H0.
  pose proof (DaysBeforeMonth_mono (LeapDays y) (m + 1) 12 Hl ltac:(lia) ltac:(lia)) as H1.
  rewrite DaysBeforeMonth_year_end in H1.
  change (DaysBeforeMonth (LeapDays y) 0) with 0 in H0. lia.
Qed.

Lemma MakeDay_month_index (y m d : Z) :
  0 <= m < 12 ->
  MakeDay y m d = DayFromYear y + DaysBeforeMonth (LeapDays y) m + d - 1.
Proof.
  intros Hm. unfold MakeDay.
  rewrite (Z.div_small m 12), (Z.mod_small m 12), Z.add_0_r by lia. reflexivity.
Qed.

Lemma Day_MakeDate (day time : Z) :
  0 <= time < msPerDay -> Day (MakeDate day time) = day.
Proof.
  unfold Day, MakeDate, msPerDay; intros. Z.div_mod_to_equations; lia.
Qed.

(** Reading a calendar date back from its time value: the year and the month
    index are the ones the time value was made from. *)
Lemma YearFromTime_MakeDate (y m d time : Z) :
  0 <= m < 12 -> 1 <= d <= DaysInMonth y m -> 0 <= time < msPerDay ->
  YearFromTime (MakeDate (MakeDay y m d) time) = y.
Proof.
  intros Hm Hd Ht. apply YearFromTime_unique.
  rewrite Day_MakeDate, MakeDay_month_index, DayFromYear_succ by assumption.
  pose proof (day_in_year y m d Hm Hd). lia.
Qed.

Lemma MonthFromTime_MakeDate (y m d time : Z) :
  0 <= m < 12 -> 1 <= d <= DaysInMonth y m -> 0 <= time < msPerDay ->
  MonthFromTime (MakeDate (MakeDay y m d) time) = m.
Proof.
  intros Hm Hd Ht. unfold MonthFromTime, DayWithinYear.
  rewrite InLeapYear_of_year, YearFromTime_MakeDate, Day_MakeDate,
    MakeDay_month_index by assumption.
  pose proof (LeapDays_range y) as Hl. unfold DaysInMonth in Hd.
  replace (DayFromYear y + DaysBeforeMonth (LeapDays y) m + d - 1 - DayFromYear y)
    with (DaysBeforeMonth (LeapDays y) m + d - 1) by lia.
  month_cases m; try lia; month_table;
    repeat match goal with
           | |- context [ ?a <? ?b ] => destruct (Z.ltb_spec a b); try lia
           end.
Qed.

(** Time values grow with the calendar order of the dates they are made
    from. *)
Lemma MakeDay_lt_year (y m d y' m' d' : Z) :
  0 <= m < 12 -> 1 <= d <= DaysInMonth y m ->
  0 <= m' < 12 -> 1 <= d' <= DaysInMonth y' m' ->
  y < y' -> MakeDay y m d < MakeDay y' m' d'.
Proof.
  intros Hm Hd Hm' Hd' Hy. rewrite !MakeDay_month_index by assumption.
  pose proof (day_in_year y m d Hm Hd). pose proof (day_in_year y' m' d' Hm' Hd').
  pose proof (DayFromYear_succ y). pose proof (DayFromYear_le (y + 1) y'). lia.
Qed.

Lemma MakeDay_lt_month (y m d m' d' : Z) :
  0 <= m < 12 -> 1 <= d <= DaysInMonth y m ->
  0 <= m' < 12 -> 1 <= d' <= DaysInMonth y m' ->
  m < m' -> MakeDay y m d < MakeDay y m' d'.
Proof.
  intros Hm Hd Hm' Hd' Hlt. rewrite !MakeDay_month_index by assumption.
  unfold DaysInMonth in Hd, Hd'.
  pose proof (DaysBeforeMonth_mono (LeapDays y) (m + 1) m' (LeapDays_range y)
                ltac:(lia) ltac:(lia)). lia.
Qed.

Lemma MakeDay_lt_day (y m d d' : Z) :
  0 <= m < 12 -> d < d' -> MakeDay y m d < MakeDay y m d'.
Proof. intros Hm Hlt. rewrite !MakeDay_month_index by assumption. lia. Qed.

End CalendarFacts.

Section StringFacts.

Local Open Scope string_scope.

Lemma append_assoc (a b c : string) : (a ++ b) ++ c = a ++ (b ++ c).
Proof. induction a as [|x a IH]; cbn; [reflexivity | now rewrite IH]. Qed.

Lemma prefix_append (a b : string) : prefix a (a ++ b) = true.
Proof.
  induction a as [|x a IH]; cbn.
  - now destruct b.
  - destruct (ascii_dec x x); [assumption | congruence].
Qed.

Lemma includes_append_r (n a b : string) :
  includes n b = true -> includes n (a ++ b) = true.
Proof.
  intros H. induction a as [|x a IH]; cbn; [assumption|].
  rewrite IH. apply orb_true_r.
Qed.

Lemma includes_prefix (n s : string) : prefix n s = true -> includes n s = true.
Proof. intros H. destruct s; cbn [includes]; rewrite H; reflexivity. Qed.

(** A string includes whatever it was assembled around. *)
Lemma includes_middle (a n b : string) : includes n (a ++ n ++ b) = true.
Proof. apply includes_append_r, includes_prefix, prefix_append. Qed.

Lemma length_append (a b : string) :
  String.length (a ++ b) = (String.length a + String.length b)%nat.
Proof. induction a as [|x a IH]; cbn; [reflexivity | now rewrite IH]. Qed.

Lemma digit_value_char (n : Z) :
  0 <= n <= 9 -> digit_value (digit_char n) = Some n.
Proof.
  intros H. small_cases n below 10%nat; reflexivity.
Qed.

Lemma read_fixed_digits (k : nat) (acc n : Z) (rest : string) :
  0 <= n < 10 ^ Z.of_nat k ->
  read_digits k acc (fixed_digits k n ++ rest)
  = Some (acc * 10 ^ Z.of_nat k + n, rest).
Proof.
  revert acc n. induction k as [|k IH]; intros acc n Hn.
  - cbn in *. f_equal. f_equal. lia.
  - cbn [fixed_digits read_digits append].
    rewrite Nat2Z.inj_succ, Z.pow_succ_r in Hn by lia.
    assert (Hp : 0 < 10 ^ Z.of_nat k) by (apply Z.pow_pos_nonneg; lia).
    rewrite digit_value_char by (Z.div_mod_to_equations; nia).
    rewrite IH by (apply Z.mod_pos_bound; lia).
    rewrite Nat2Z.inj_succ, Z.pow_succ_r by lia.
    f_equal. f_equal. Z.div_mod_to_equations; nia.
Qed.

Lemma length_fixed_digits (k : nat) (n : Z) : String.length (fixed_digits k n) = k.
Proof. revert n; induction k as [|k IH]; intros n; cbn; [reflexivity | now rewrite IH]. Qed.

End StringFacts.

Section DateStrings.

Lemma valid_date_inv (c : CalDate) :
  valid_date c = true ->
  0 <= year c <= 9999 /\ 0 <= month c - 1 < 12 /\
  1 <= day c <= DaysInMonth (year c) (month c - 1).
Proof.
  unfold valid_date. rewrite !andb_true_iff, !Z.leb_le. lia.
Qed.

Lemma DaysInMonth_le_31 (y m : Z) : 0 <= m < 12 -> DaysInMonth y m <= 31.
Proof.
  intros Hm. unfold DaysInMonth. pose proof (LeapDays_range y).
  month_cases m; try lia; month_table; lia.
Qed.

Lemma read_year_fixed (y : Z) (rest : string) :
  0 <= y <= 9999 -> read_year (fixed_digits 4 y ++ rest)%string = Some (y, rest).
Proof.
  intros Hy.
  transitivity (read_digits 4 0 (fixed_digits 4 y ++ rest)%string).
  - unfold read_year. cbn [fixed_digits append]. change (10 ^ Z.of_nat 3) with 1000.
    assert (Q : 0 <= y / 1000 < 10) by (Z.div_mod_to_equations; lia).
    generalize dependent (y / 1000). intros q Q.
    small_cases q below 10%nat; reflexivity.
  - rewrite read_fixed_digits by (cbn; lia). reflexivity.
Qed.

Lemma parse_date_iso (c : CalDate) (rest : string) :
  valid_date c = true ->
  parse_date (iso c ++ rest)%string = Some (year c, month c, day c, rest).
Proof.
  intros V. apply valid_date_inv in V. destruct V as (Hy & Hm & Hd).
  pose proof (DaysInMonth_le_31 (year c) (month c - 1) Hm).
  unfold parse_date, iso. rewrite !append_assoc.
  rewrite read_year_fixed by assumption. cbn [append].
  rewrite (read_fixed_digits 2) by (cbn; lia). cbn [append].
  rewrite (read_fixed_digits 2) by (cbn; lia).
  repeat f_equal; lia.
Qed.

Lemma parse_iso_midnight (c : CalDate) :
  valid_date c = true -> parse_iso (iso c ++ "T00:00:00Z")%string = Some (time_of c).
Proof.
  intros V. unfold parse_iso. rewrite parse_date_iso by assumption.
  change (parse_time_utc "T00:00:00Z"%string) with (Some (0, 0, 0, 0)).
  apply valid_date_inv in V. destruct V as (Hy & Hm & Hd).
  replace ((1 <=? month c) && (month c <=? 12) && (1 <=? day c) &&
           (day c <=? DaysInMonth (year c) (month c - 1)))%Z with true
    by (symmetry; rewrite !andb_true_iff, !Z.leb_le; lia).
  reflexivity.
Qed.

Lemma time_of_in_range (c : CalDate) :
  valid_date c = true -> TimeClip (time_of c) = Some (time_of c).
Proof.
  intros V. apply valid_date_inv in V. destruct V as (Hy & Hm & Hd).
  pose proof (DaysInMonth_le_31 (year c) (month c - 1) Hm).
  pose proof (day_in_year _ _ _ Hm Hd) as Hin.
  pose proof (DaysInYear_range (year c)).
  unfold TimeClip, time_of, MakeDate. rewrite MakeDay_month_index by assumption.
  assert (B : -719528 <= DayFromYear (year c) <= 2932532)
    by (unfold DayFromYear; Z.div_mod_to_equations; lia).
  unfold msPerDay.
  destruct (Z.leb_spec (Z.abs
    ((DayFromYear (year c) + DaysBeforeMonth (LeapDays (year c)) (month c - 1)
      + day c - 1) * 86400000 + 0)) 8640000000000000); [reflexivity | lia].
Qed.

(** A valid date followed by ["T00:00:00Z"] parses to its midnight UTC, on
    every host. *)
Lemma DateParse_iso (h : DateHost) (c : CalDate) :
  valid_date c = true -> DateParse h (iso c ++ "T00:00:00Z")%string = Some (time_of c).
Proof.
  intros V. unfold DateParse.
  rewrite parse_iso_midnight, time_of_in_range by assumption. reflexivity.
Qed.

Lemma length_iso (c : CalDate) : String.length (iso c) = 10%nat.
Proof. unfold iso. rewrite !length_append, !length_fixed_digits. reflexivity. Qed.




End DateStrings.

Section DateOrder.

Lemma time_of_lt (a b : CalDate) :
  valid_date a = true -> valid_date b = true ->
  later b a = true -> time_of a < time_of b.
Proof.
  intros Va Vb L.
  apply valid_date_inv in Va; destruct Va as (Hya & Hma & Hda).
  apply valid_date_inv in Vb; destruct Vb as (Hyb & Hmb & Hdb).
  assert (D : MakeDay (year a) (month a - 1) (day a)
              < MakeDay (year b) (month b - 1) (day b)).
  { unfold later in L.
    destruct (Z.ltb_spec (year a) (year b)) as [Hy | Hy].
    - now apply MakeDay_lt_year.
    - destruct (Z.eqb_spec (year b) (year a)) as [Ey | Ny]; [|discriminate].
      rewrite Ey in *. cbn [orb andb] in L.
      destruct (Z.ltb_spec (month a) (month b)) as [Hm | Hm].
      + apply MakeDay_lt_month; trivial; lia.
      + destruct (Z.eqb_spec (month b) (month a)) as [Em | Nm]; [|discriminate].
        rewrite Em in *. cbn [orb andb] in L. apply Z.ltb_lt in L.
        apply MakeDay_lt_day; trivial. }
  unfold time_of, MakeDate, msPerDay. lia.
Qed.

Lemma later_total (a b : CalDate) :
  later a b = false -> later b a = true \/ a = b.
Proof.
  destruct a as [ya ma da], b as [yb mb db]. unfold later; cbn [year month day].
  destruct (Z.ltb_spec yb ya), (Z.ltb_spec ya yb), (Z.eqb_spec ya yb),
    (Z.eqb_spec yb ya), (Z.ltb_spec mb ma), (Z.ltb_spec ma mb),
    (Z.eqb_spec ma mb), (Z.eqb_spec mb ma), (Z.ltb_spec db da),
    (Z.ltb_spec da db); cbn; intros; try discriminate; try lia; auto.
  right. f_equal; lia.
Qed.

(** The script's comparison of two parsed dates is the calendar order of the
    days. *)
Lemma time_of_leb (a b : CalDate) :
  valid_date a = true -> valid_date b = true ->
  (time_of a <=? time_of b) = negb (later a b).
Proof.
  intros Va Vb. destruct (later a b) eqn:L; cbn [negb].
  - apply Z.leb_gt. now apply time_of_lt.
  - apply Z.leb_le. destruct (later_total _ _ L) as [L' | ->]; [|lia].
    pose proof (time_of_lt a b Va Vb L'). lia.
Qed.

(** Local calendar fields on a host at or east of UTC. *)
Lemma getFullYear_time_of (h : DateHost) (c : CalDate) :
  east_of_utc h -> valid_date c = true -> getFullYear h (time_of c) = year c.
Proof.
  intros E V. apply valid_date_inv in V. destruct V as (Hy & Hm & Hd).
  unfold getFullYear, LocalTime, time_of, MakeDate. rewrite Z.add_0_r.
  apply (YearFromTime_MakeDate _ _ _ (LocalTZA h _)); trivial.
Qed.

Lemma getMonth_time_of (h : DateHost) (c : CalDate) :
  east_of_utc h -> valid_date c = true -> getMonth h (time_of c) = month c - 1.
Proof.
  intros E V. apply valid_date_inv in V. destruct V as (Hy & Hm & Hd).
  unfold getMonth, LocalTime, time_of, MakeDate. rewrite Z.add_0_r.
  apply (MonthFromTime_MakeDate _ _ _ (LocalTZA h _)); trivial.
Qed.

(** Behind UTC the local day of a midnight UTC is the day before: the local
    fields of the first of a month are those of the month before it. *)
Lemma local_month_behind_utc (h : DateHost) (c : CalDate) :
  behind_utc h -> valid_date c = true ->
  getFullYear h (time_of c) * 12 + getMonth h (time_of c)
  = year c * 12 + (month c - 1) - on_first c.
Proof.
  intros E V. apply valid_date_inv in V. destruct V as (Hy & Hm & Hd).
  specialize (E (time_of c)).
  unfold getFullYear, getMonth, LocalTime. set (off := LocalTZA h (time_of c)) in *.
  assert (T : time_of c + off
              = MakeDate (MakeDay (year c) (month c - 1) (day c) - 1) (msPerDay + off))
    by (unfold time_of, MakeDate; lia).
  rewrite T. unfold on_first.
  destruct (Z.eqb_spec (day c) 1) as [D1 | D1].
  - destruct (Z.eq_dec (month c) 1) as [M1 | M1].
    + (* 1 January: 31 December of the year before *)
      assert (P : MakeDay (year c) (month c - 1) (day c) - 1
                  = MakeDay (year c - 1) 11 31).
      { rewrite !MakeDay_month_index by lia. rewrite D1, M1.
        pose proof (DayFromYear_succ (year c - 1)) as S.
        replace (year c - 1 + 1) with (year c) in S by lia.
        change (1 - 1) with 0. unfold DaysBeforeMonth, LeapDays. lia. }
      rewrite P.
      rewrite YearFromTime_MakeDate, MonthFromTime_MakeDate;
        try lia; unfold DaysInMonth; change (11 + 1) with 12;
        unfold DaysBeforeMonth; lia.
    + (* the first of another month: the last day of the month before *)
      assert (P : MakeDay (year c) (month c - 1) (day c) - 1
                  = MakeDay (year c) (month c - 2)
                      (DaysInMonth (year c) (month c - 2))).
      { rewrite !MakeDay_month_index by lia. rewrite D1. unfold DaysInMonth.
        replace (month c - 2 + 1) with (month c - 1) by lia. lia. }
      rewrite P.
      assert (L : 1 <= DaysInMonth (year c) (month c - 2)).
      { pose proof (LeapDays_range (year c)). unfold DaysInMonth.
        assert (B : 0 <= month c - 2 < 11) by lia.
        generalize dependent (month c - 2). intros m _ B.
        small_cases m below 11%nat; month_table; lia. }
      rewrite YearFromTime_MakeDate, MonthFromTime_MakeDate; lia.
  - assert (P : MakeDay (year c) (month c - 1) (day c) - 1
                = MakeDay (year c) (month c - 1) (day c - 1))
      by (rewrite !MakeDay_month_index by lia; lia).
    rewrite P.
    rewrite YearFromTime_MakeDate, MonthFromTime_MakeDate; lia.
Qed.

End DateOrder.

Section Calculator.

Variable h : DateHost.

(** On valid dates the calculator throws exactly when the target is not a
    later day than the reference, and otherwise subtracts the local calendar
    fields of the two midnights. *)
Lemma calcular_iso (T R : CalDate) :
  valid_date T = true -> valid_date R = true ->
  calcularMesesHastaFecha h (iso T) (iso R) =
  if later T R
  then Normal ((getFullYear h (time_of T) - getFullYear h (time_of R)) * 12
               + (getMonth h (time_of T) - getMonth h (time_of R)))
  else Throw (mkError NonFutureTarget (non_future_text (iso T))).
Proof.
  intros VT VR. unfold calcularMesesHastaFecha.
  rewrite length_iso. cbn [Nat.eqb]. rewrite andb_false_r.
  rewrite !DateParse_iso by assumption.
  rewrite time_of_leb by assumption.
  destruct (later T R); reflexivity.
Qed.

(** A string of seven characters with a dash is completed with ["-01"]
    before parsing; the string quoted in the error stays the one passed. *)
Lemma calcular_shorthand (s R : string) :
  String.length s = 7%nat -> includes "-" s = true ->
  calcularMesesHastaFecha h s R =
  match calcularMesesHastaFecha h (s ++ "-01") R with
  | Normal n => Normal n
  | Throw e =>
      match kind e with
      | NonFutureTarget => Throw (mkError NonFutureTarget (non_future_text s))
      | _ => Throw e
      end
  end.
Proof.
  intros L I. unfold calcularMesesHastaFecha.
  rewrite length_append, L, I. cbn [Nat.eqb Nat.add String.length andb].
  rewrite andb_false_r.
  destruct (DateParse h ((s ++ "-01") ++ "T00:00:00Z")) as [t|];
    destruct (DateParse h (R ++ "T00:00:00Z")) as [u|]; try reflexivity.
  destruct (t <=? u); reflexivity.
Qed.

(** The only error with a message that depends on the arguments is the
    non-future one, and it depends on the target alone. *)
Lemma calcular_throw (T R : string) (e : JsError) :
  calcularMesesHastaFecha h T R = Throw e ->
  e = mkError InvalidDate "Las fechas no son válidas." \/
  e = mkError NonFutureTarget (non_future_text T).
Proof.
  unfold calcularMesesHastaFecha.
  destruct (DateParse h _) as [t|]; [destruct (DateParse h _) as [u|]|].
  - destruct (t <=? u); [|discriminate]. intros [= <-]. now right.
  - intros [= <-]. now left.
  - intros [= <-]. now left.
Qed.

(** Where local time is UTC or ahead of it, the count on valid dates is the
    difference of the calendar years and months. *)
Lemma calcular_east_of_utc (T R : CalDate) :
  east_of_utc h -> valid_date T = true -> valid_date R = true ->
  later T R = true ->
  calcularMesesHastaFecha h (iso T) (iso R)
  = Normal ((year T - year R) * 12 + (month T - month R)).
Proof.
  intros E VT VR L. rewrite calcular_iso, L by assumption.
  rewrite !getFullYear_time_of, !getMonth_time_of by assumption.
  f_equal. lia.
Qed.

(** Where local time is behind UTC, the count is one more when only the
    reference falls on the first of its month, and one less when only the
    target does. *)
Lemma calcular_behind_utc (T R : CalDate) :
  behind_utc h -> valid_date T = true -> valid_date R = true ->
  later T R = true ->
  calcularMesesHastaFecha h (iso T) (iso R)
  = Normal ((year T - year R) * 12 + (month T - month R)
            + on_first R - on_first T).
Proof.
  intros E VT VR L. rewrite calcular_iso, L by assumption.
  pose proof (local_month_behind_utc h T E VT).
  pose proof (local_month_behind_utc h R E VR).
  f_equal. lia.
Qed.

End Calculator.

Example months_2022_05_01 :
  calcularMesesHastaFecha host_utc "2022-05-01" "2021-03-01" = Normal 14.
Proof. vm_compute. reflexivity. Qed.

Example months_2022_05_01_west :
  calcularMesesHastaFecha host_utc_minus_5 "2022-05-01" "2021-03-01" = Normal 14.
Proof. vm_compute. reflexivity. Qed.

Example months_2022_05_02_west :
  calcularMesesHastaFecha host_utc_minus_5 "2022-05-02" "2021-03-01" = Normal 15.
Proof. vm_compute. reflexivity. Qed.

Example months_2022_05 :
  calcularMesesHastaFecha host_utc "2022-05" "2021-03-01" = Normal 14.
Proof. vm_compute. reflexivity. Qed.

Example months_same_day :
  calcularMesesHastaFecha host_utc "2021-03-01" "2021-03-01"
  = Throw (mkError NonFutureTarget
      "La fecha objetivo (2021-03-01) debe ser posterior a la última fecha disponible (marzo 2021).").
Proof. vm_compute. reflexivity. Qed.

Example months_same_month :
  calcularMesesHastaFecha host_utc "2021-03-15" "2021-03-01" = Normal 0.
Proof. vm_compute. reflexivity. Qed.

Example months_same_month_west :
  calcularMesesHastaFecha host_utc_minus_5 "2021-03-15" "2021-03-01" = Normal 1.
Proof. vm_compute. reflexivity. Qed.

Example toString_one_tenth : toString (div (of_Z 1) (of_Z 10)) = "0.1"%string.
Proof. vm_compute. reflexivity. Qed.

Example toString_1e21 : toString (of_Z (10 ^ 21)) = "1e+21"%string.
Proof. vm_compute. reflexivity. Qed.

Example toString_1e20 : toString (of_Z (10 ^ 20)) = "100000000000000000000"%string.
Proof. vm_compute. reflexivity. Qed.

Example toFixed_1_005 : toFixed 2 (div (of_Z 1005) (of_Z 1000)) = "1.00"%string.
Proof. vm_compute. reflexivity. Qed.

Example toFixed_minus_0_001 : toFixed 2 (div (of_Z (-1)) (of_Z 1000)) = "-0.00"%string.
Proof. vm_compute. reflexivity. Qed.

(** ** Fixed-point notation *)

Section FixedPoint.

Local Open Scope string_scope.

Lemma all_digits_append (a b : string) :
  all_digits (a ++ b) = all_digits a && all_digits b.
Proof.
  induction a as [|c a IH]; cbn; [reflexivity|].
  rewrite IH. apply andb_assoc.
Qed.

Lemma all_digits_zeros (k : nat) : all_digits (zeros k) = true.
Proof. induction k as [|k IH]; cbn; [reflexivity | exact IH]. Qed.

Lemma length_zeros (k : nat) : String.length (zeros k) = k.
Proof. induction k as [|k IH]; cbn; [reflexivity | now rewrite IH]. Qed.

Lemma all_digits_substring (s : string) (n m : nat) :
  all_digits s = true -> all_digits (substring n m s) = true.
Proof.
  revert n m. induction s as [|c s IH]; intros n m H.
  - destruct n, m; reflexivity.
  - cbn in H. apply andb_true_iff in H. destruct H as [Hc Hs].
    destruct n as [|n]; cbn.
    + destruct m as [|m]; cbn; [reflexivity|].
      rewrite Hc. apply (IH 0%nat m Hs).
    + apply IH, Hs.
Qed.

Lemma length_substring (s : string) (n m : nat) :
  (n + m <= String.length s)%nat -> String.length (substring n m s) = m.
Proof.
  revert n m. induction s as [|c s IH]; intros n m H; cbn in H.
  - destruct n, m; cbn; try reflexivity; lia.
  - destruct n as [|n]; cbn.
    + destruct m as [|m]; cbn; [reflexivity|].
      f_equal. apply (IH 0%nat m). lia.
    + apply IH. lia.
Qed.

Lemma all_digits_uint (d : Decimal.uint) :
  all_digits (NilEmpty.string_of_uint d) = true.
Proof. induction d; cbn; trivial. Qed.

Lemma all_digits_decimal (n : Z) : all_digits (decimal n) = true.
Proof.
  unfold decimal, NilZero.string_of_uint.
  destruct (N.to_uint (Z.to_N n)); try reflexivity; apply all_digits_uint.
Qed.

Lemma length_decimal (n : Z) : (1 <= String.length (decimal n))%nat.
Proof.
  unfold decimal, NilZero.string_of_uint.
  destruct (N.to_uint (Z.to_N n)); cbn; lia.
Qed.

(** What [fixed_point] writes: digits, a point, and [f] digits. *)
Lemma fixed_point_shape (f : nat) (n : Z) :
  f <> 0%nat ->
  exists a b,
    fixed_point f n = a ++ "." ++ b /\
    all_digits a = true /\ (1 <= String.length a)%nat /\
    all_digits b = true /\ String.length b = f.
Proof.
  intros Hf. unfold fixed_point. destruct f as [|f]; [contradiction|].
  set (m0 := decimal n).
  set (m := if (String.length m0 <=? S f)%nat
            then zeros (S f + 1 - String.length m0) ++ m0 else m0).
  assert (Dm : all_digits m = true).
  { unfold m. destruct (_ <=? _)%nat.
    - rewrite all_digits_append, all_digits_zeros. apply all_digits_decimal.
    - apply all_digits_decimal. }
  assert (Lm : (S f + 1 <= String.length m)%nat).
  { unfold m. pose proof (length_decimal n). fold m0 in H.
    destruct (Nat.leb_spec (String.length m0) (S f)).
    - rewrite length_append, length_zeros. lia.
    - lia. }
  exists (substring 0 (String.length m - S f) m),
         (substring (String.length m - S f) (S f) m).
  repeat split.
  - now apply all_digits_substring.
  - rewrite length_substring; lia.
  - now apply all_digits_substring.
  - rewrite length_substring; lia.
Qed.

Lemma split_at_point_digits (a b : string) :
  all_digits a = true -> split_at_point (a ++ "." ++ b) = Some (a, b).
Proof.
  induction a as [|c a IH]; intros H; cbn.
  - reflexivity.
  - cbn in H. apply andb_true_iff in H. destruct H as [Hc Ha].
    specialize (IH Ha). cbn in IH. rewrite IH.
    destruct (Ascii.eqb_spec c "."%char) as [-> | _]; [discriminate | reflexivity].
Qed.

Lemma has_decimals_shape (f : nat) (a b : string) :
  all_digits a = true -> (1 <= String.length a)%nat ->
  all_digits b = true -> String.length b = f ->
  has_decimals f (a ++ "." ++ b) = true /\
  has_decimals f ("-" ++ a ++ "." ++ b) = true.
Proof.
  intros Da La Db Lb.
  assert (U : has_decimals f ("-" ++ a ++ "." ++ b) = true).
  { unfold has_decimals. change ("-" ++ a ++ "." ++ b) with (String "-"%char (a ++ "." ++ b)).
    cbv iota beta. rewrite Ascii.eqb_refl, split_at_point_digits by assumption.
    rewrite Da, Db, Lb, Nat.eqb_refl.
    destruct a; [cbn in La; lia | reflexivity]. }
  split; [|exact U].
  destruct a as [|c a]; [cbn in La; lia|].
  unfold has_decimals in *.
  change ("-" ++ String c a ++ "." ++ b) with (String "-"%char (String c a ++ "." ++ b)) in U.
  cbv iota beta in U. rewrite Ascii.eqb_refl in U.
  change (String c a ++ "." ++ b) with (String c (a ++ "." ++ b)) at 1.
  cbv iota beta.
  cbn [all_digits] in Da. apply andb_true_iff in Da. destruct Da as [Dc Da].
  destruct (Ascii.eqb_spec c "-"%char) as [-> | N]; [discriminate | exact U].
Qed.

(** [toFixed] on a finite number below 10^21: the sign, then the rounded
    value in fixed-point notation. *)
Lemma toFixed_has_decimals (f : nat) (x : number) :
  f <> 0%nat -> below_1e21 x = true -> has_decimals f (toFixed f x) = true.
Proof.
  intros Hf B. destruct x as [s | s | | s m e]; try discriminate.
  - cbn [toFixed].
    destruct (fixed_point_shape f 0 Hf) as (a & b & -> & Da & La & Db & Lb).
    now apply has_decimals_shape.
  - cbn [toFixed below_1e21] in *. apply negb_true_iff in B. rewrite B.
    destruct (fixed_point_shape f (scaled_round f (magnitude m e)) Hf)
      as (a & b & -> & Da & La & Db & Lb).
    destruct s; cbn [append]; now apply has_decimals_shape.
Qed.

End FixedPoint.

(** ** The listener *)

Section ClassLists.

Lemma contains_insert (token : string) (l : list string) :
  contains token (insert token l) = true.
Proof.
  unfold insert. destruct (contains token l) eqn:E; [exact E|].
  unfold contains. rewrite existsb_app. cbn.
  rewrite String.eqb_refl. now rewrite orb_true_r.
Qed.

Lemma contains_remove (token : string) (l : list string) :
  contains token (remove token l) = false.
Proof.
  unfold contains, remove. induction l as [|t l IH]; cbn; [reflexivity|].
  destruct (String.eqb token t) eqn:E; cbn; [exact IH|].
  now rewrite E, IH.
Qed.

End ClassLists.

(** Reads a field of a page written by setters. *)
Ltac page_simpl :=
  cbn [horizonte_value escenario_value nivelUsuario_value fechaObjetivo_value
       calcularBtn_disabled calcularBtn_textContent resultsSection_classList
       errorMessage_classList errorMessage_textContent riesgoBox_classList
       riesgoGlobal_textContent sequiaInfo_textContent prediccionTbody_rows
       requests console
       set_calcularBtn_disabled set_calcularBtn_textContent
       set_resultsSection_classList set_errorMessage_classList
       set_errorMessage_textContent set_riesgoBox_classList
       set_riesgoGlobal_textContent set_sequiaInfo_textContent
       set_prediccionTbody_rows set_requests set_console
       loading at_rest caught mostrarError] in *.

Section Keeps.

Variable R : World -> World -> Prop.
Hypothesis R_refl : forall w, R w w.
Hypothesis R_trans : forall w1 w2 w3, R w1 w2 -> R w2 w3 -> R w1 w3.

Lemma keeps_ret {A} (a : A) : keeps R (ret a).
Proof. intros w; apply R_refl. Qed.

Lemma keeps_throw {A} (e : JsError) : keeps R (@throw A e).
Proof. intros w; apply R_refl. Qed.

Lemma keeps_gets {A} (f : World -> A) : keeps R (gets f).
Proof. intros w; apply R_refl. Qed.

Lemma keeps_lift {A} (c : Completion A) : keeps R (lift c).
Proof. intros w; apply R_refl. Qed.

Lemma keeps_try {A} (b : Browser) (t : Try A) : keeps R (try b t).
Proof. intros w; destruct t; apply R_refl. Qed.

Lemma keeps_modify (f : World -> World) :
  (forall w, R w (f w)) -> keeps R (modify f).
Proof. intros H w; apply H. Qed.

Lemma keeps_bind {A B} (c : M A) (k : A -> M B) :
  keeps R c -> (forall a, keeps R (k a)) -> keeps R (bind c k).
Proof.
  intros Hc Hk w. unfold bind. specialize (Hc w).
  destruct (c w) as [[a | e] w']; cbn in *; [|assumption].
  eapply R_trans; [eassumption | apply Hk].
Qed.

Lemma keeps_if {A} (c : bool) (x y : M A) :
  keeps R x -> keeps R y -> keeps R (if c then x else y).
Proof. destruct c; trivial. Qed.

End Keeps.

(** Steps through a computation built from the combinators above. *)
Ltac keeps_step :=
  lazymatch goal with
  | |- keeps _ (ret _) => apply keeps_ret; assumption
  | |- keeps _ (throw _) => apply keeps_throw; assumption
  | |- keeps _ (gets _) => apply keeps_gets; assumption
  | |- keeps _ (lift _) => apply keeps_lift; assumption
  | |- keeps _ (try _ _) => apply keeps_try; assumption
  | |- keeps _ (modify _) => apply keeps_modify; intro
  | |- keeps _ (bind _ _) => apply keeps_bind; [assumption | | intro]
  | |- keeps _ (if _ then _ else _) => apply keeps_if
  | |- keeps _ (match ?x with _ => _ end) => destruct x
  | |- keeps _ _ => solve [auto]
  end.

Section Frames.

Variable b : Browser.

Lemma same_views_refl (w : World) : same_views w w.
Proof. split; trivial. Qed.

Lemma same_views_trans (w1 w2 w3 : World) :
  same_views w1 w2 -> same_views w2 w3 -> same_views w1 w3.
Proof. intros [E1 V1] [E2 V2]. split; [congruence | auto]. Qed.

Lemma same_requests_refl (w : World) : same_requests w w.
Proof. reflexivity. Qed.

Lemma same_requests_trans (w1 w2 w3 : World) :
  same_requests w1 w2 -> same_requests w2 w3 -> same_requests w1 w3.
Proof. unfold same_requests; congruence. Qed.

Lemma forEach_fila_views (items : list value) :
  keeps same_views (forEach_fila b items).
Proof.
  pose proof same_views_refl. pose proof same_views_trans.
  induction items as [|mes rest IH]; cbn [forEach_fila].
  - keeps_step.
  - repeat keeps_step. split; trivial.
Qed.

Lemma forEach_fila_requests (items : list value) :
  keeps same_requests (forEach_fila b items).
Proof.
  pose proof same_requests_refl. pose proof same_requests_trans.
  induction items as [|mes rest IH]; cbn [forEach_fila].
  - keeps_step.
  - repeat keeps_step. reflexivity.
Qed.

End Frames.

Section Submission.

Variable b : Browser.

Local Open Scope string_scope.

Lemma mostrarResultados_requests (v : value) :
  keeps same_requests (mostrarResultados b v).
Proof.
  pose proof same_requests_refl. pose proof same_requests_trans.
  pose proof (forEach_fila_requests b).
  unfold mostrarResultados. cbv zeta. repeat keeps_step; reflexivity.
Qed.

Lemma mostrarResultados_views (v : value) (w : World) :
  same_banner w (snd (mostrarResultados b v w)) /\
  visible (resultsSection_classList (snd (mostrarResultados b v w))) = true.
Proof.
  pose proof same_views_refl. pose proof same_views_trans.
  pose proof (forEach_fila_views b).
  unfold mostrarResultados.
  match goal with
  | |- context [ bind (modify ?f) ?k ] =>
      assert (K : keeps same_views (k tt));
      [| change (bind (modify f) k w) with (k tt (f w));
         destruct (K (f w)) as [E V] ]
  end.
  - cbv zeta. repeat keeps_step; split; trivial.
  - split; [exact E|]. apply V. apply contains_insert.
Qed.

(** The [try] block, step by step. *)
Lemma try_block_unfold (w : World) :
  try_block b w =
  match resolve_horizon b w with
  | Throw e => (Throw e, w)
  | Normal h =>
      if escenario_value w =? "" then (Throw missing_scenario, w)
      else
        let req := predict_request b w h in
        let w1 := set_requests (requests w ++ [req]) w in
        match fetch b req with
        | NetworkFailure reason => (Throw (mkError TransportFailure reason), w1)
        | Responded r =>
            match json r with
            | NotJson reason => (Throw (mkError TransportFailure reason), w1)
            | Json v =>
                if negb (ok r) then (Throw (rejection b v), w1)
                else mostrarResultados b v w1
            end
        end
  end.
Proof.
  unfold try_block, resolve_horizon, predict_request, await_fetch, await_json,
    rejection, try, bind, gets, lift, modify, ret, throw, BACKEND_URL.
  cbn [append].
  destruct (negb (fechaObjetivo_value w =? "")).
  - destruct (calcularMesesHastaFecha _ _ _) as [n | e]; [|reflexivity].
    destruct (escenario_value w =? ""); [reflexivity|].
    destruct (fetch b _) as [[o [v | reason]] | reason]; try reflexivity;
      destruct o; cbn [negb ok json]; try reflexivity.
    destruct (Get v "detail") as [d | f]; [|reflexivity].
    destruct (ToBoolean d); [|reflexivity].
    destruct (ToString d); reflexivity.
  - destruct (negb (horizonte_value w =? "")); [|reflexivity].
    destruct (escenario_value w =? ""); [reflexivity|].
    destruct (fetch b _) as [[o [v | reason]] | reason]; try reflexivity;
      destruct o; cbn [negb ok json]; try reflexivity.
    destruct (Get v "detail") as [d | f]; [|reflexivity].
    destruct (ToBoolean d); [|reflexivity].
    destruct (ToString d); reflexivity.
Qed.

(** The listener is its [try] block between the loading page and the
    [catch] and [finally] blocks. *)
Lemma submit_listener_unfold (w : World) :
  submit_listener b w =
  at_rest (match try_block b (loading w) with
           | (Normal _, w') => w'
           | (Throw error, w') => caught error w'
           end).
Proof.
  unfold submit_listener. fold (loading w).
  destruct (try_block b (loading w)) as [[u | e] w']; reflexivity.
Qed.

End Submission.

(** ** What a submission leaves behind *)

Section Outcome.

Variable b : Browser.

Local Open Scope string_scope.

Lemma skipn_length_app {A} (l l' : list A) : skipn (List.length l) (l ++ l') = l'.
Proof. induction l as [|x l IH]; [reflexivity | exact IH]. Qed.

Lemma skipn_length {A} (l : list A) : skipn (List.length l) l = [].
Proof. induction l as [|x l IH]; [reflexivity | exact IH]. Qed.

(** How the [try] block completes, from the form alone and the backend. *)
Lemma completion_unfold (w : World) :
  completion b w =
  match resolve_horizon b w with
  | Throw e => Throw e
  | Normal h =>
      if escenario_value w =? "" then Throw missing_scenario
      else
        match fetch b (predict_request b w h) with
        | NetworkFailure reason => Throw (mkError TransportFailure reason)
        | Responded r =>
            match json r with
            | NotJson reason => Throw (mkError TransportFailure reason)
            | Json v =>
                if negb (ok r) then Throw (rejection b v)
                else fst (mostrarResultados b v
                            (set_requests
                               (requests w ++ [predict_request b w h])%list
                               (loading w)))
            end
        end
  end.
Proof.
  unfold completion. rewrite try_block_unfold.
  change (resolve_horizon b (loading w)) with (resolve_horizon b w).
  change (escenario_value (loading w)) with (escenario_value w).
  destruct (resolve_horizon b w) as [h | e]; [|reflexivity].
  change (predict_request b (loading w) h) with (predict_request b w h).
  destruct (escenario_value w =? ""); [reflexivity|]. cbv zeta.
  destruct (fetch b _) as [[o [v | reason]] | reason]; cbn [json ok]; try reflexivity.
  destruct (negb o); reflexivity.
Qed.

(** The requests on record after a submission: one more exactly when the
    horizon resolved and a scenario was chosen. *)
Lemma requests_after (w : World) :
  requests (submit_listener b w) =
  match resolve_horizon b w with
  | Throw _ => requests w
  | Normal h =>
      if escenario_value w =? "" then requests w
      else (requests w ++ [predict_request b w h])%list
  end.
Proof.
  rewrite submit_listener_unfold, try_block_unfold.
  change (resolve_horizon b (loading w)) with (resolve_horizon b w).
  change (escenario_value (loading w)) with (escenario_value w).
  destruct (resolve_horizon b w) as [h | e]; [|reflexivity].
  change (predict_request b (loading w) h) with (predict_request b w h).
  destruct (escenario_value w =? ""); [reflexivity|]. cbv zeta.
  destruct (fetch b _) as [[o [v | reason]] | reason]; cbn [json ok]; try reflexivity.
  destruct (negb o); [reflexivity|].
  pose proof (mostrarResultados_requests b v
                (set_requests (requests w ++ [predict_request b w h])%list
                   (loading w))) as K.
  unfold same_requests in K.
  destruct (mostrarResultados b v _) as [[u | e] w']; cbn [snd] in K; exact K.
Qed.

(** The two views after a submission. *)
Lemma views_after (w : World) :
  let w' := submit_listener b w in
  match completion b w with
  | Normal _ =>
      visible (resultsSection_classList w') = true /\
      visible (errorMessage_classList w') = false
  | Throw e =>
      visible (errorMessage_classList w') = true /\
      visible (resultsSection_classList w') = false /\
      prediccionTbody_rows w' = [] /\
      errorMessage_textContent w' = "❌ " ++ message e
  end.
Proof.
  cbv zeta. unfold completion. rewrite submit_listener_unfold.
  destruct (try_block b (loading w)) as [[u | e] w'] eqn:E; cbn [fst].
  - assert (V : same_banner (loading w) w' /\
                visible (resultsSection_classList w') = true).
    { rewrite try_block_unfold in E.
      destruct (resolve_horizon b (loading w)) as [h | e]; [|discriminate].
      destruct (escenario_value (loading w) =? ""); [discriminate|].
      cbv zeta in E.
      destruct (fetch b _) as [[o [v | reason]] | reason]; cbn [json ok] in E;
        try discriminate.
      destruct (negb o); [discriminate|].
      match type of E with
      | mostrarResultados b v ?w1 = _ =>
          pose proof (mostrarResultados_views b v w1) as [B S];
          rewrite E in B, S; cbn [snd] in B, S
      end.
      split; [exact B | exact S]. }
    destruct V as [B S]. unfold same_banner in B. page_simpl.
    split; [exact S|]. rewrite B. apply contains_remove.
  - page_simpl. unfold visible. repeat split.
    + apply contains_insert.
    + apply contains_remove.
Qed.

End Outcome.

(** ** The calculator: statements *)

Section CalculatorStatements.

Local Open Scope string_scope.

(** The number that the literal [12.345] denotes is the quotient of 12345 by
    1000 rounded to nearest: of all binary64 numbers, the one the decimal
    rounds to. *)
Example level_12_345 :
  div (of_Z 12345) (of_Z 1000) = S754_finite false 6949617174986097 (-49) /\
  rounds_to 6949617174986097 (-49) (12345 # 1000) = true.
Proof. vm_compute. split; reflexivity. Qed.

(** C1: the month count is (T.year - R.year) * 12 + (T.month - R.month) for
    every valid target T after a valid reference R.  The script parses both
    dates as midnight UTC and then reads the year and the month in local
    time: five hours behind UTC, the target 2022-05-02 falls on 1 May and
    the reference 2021-03-01 on 28 February, and the count is 15 where the
    property gives 14. *)
Theorem month_count_behind_utc :
  let T := mkDate 2022 5 2 in
  let R := mkDate 2021 3 1 in
  valid_date T = true /\ valid_date R = true /\ later T R = true /\
  iso T = "2022-05-02" /\ iso R = "2021-03-01" /\
  calcularMesesHastaFecha host_utc_minus_5 (iso T) (iso R) = Normal 15 /\
  (year T - year R) * 12 + (month T - month R) = 14 /\
  calcularMesesHastaFecha host_utc (iso T) (iso R) = Normal 14.
Proof. vm_compute. repeat split; reflexivity. Qed.

(** C2, as stated, fails: the target 2021-03-15 is not later than the
    reference 2021-03-01 once the day of the month is ignored, and the call
    returns normally. *)
Lemma same_month_target_accepted :
  later_month (mkDate 2021 3 15) (mkDate 2021 3 1) = false /\
  calcularMesesHastaFecha host_utc "2021-03-15" "2021-03-01" = Normal 0.
Proof. vm_compute. split; reflexivity. Qed.

(** C2, amended: the call fails with the non-future error whenever the target
    is not a later day than the reference, the day of the month included, so
    in particular when the two dates are the same; on every host. *)
Theorem non_future_target_rejected (h : DateHost) (T R : CalDate) :
  valid_date T = true -> valid_date R = true -> later T R = false ->
  calcularMesesHastaFecha h (iso T) (iso R)
  = Throw (mkError NonFutureTarget (non_future_text (iso T))).
Proof.
  intros VT VR L. rewrite calcular_iso by assumption. now rewrite L.
Qed.

Lemma non_future_target_rejected_witness :
  calcularMesesHastaFecha host_utc (iso (mkDate 2021 3 1)) (iso (mkDate 2021 3 1))
  = Throw (mkError NonFutureTarget (non_future_text (iso (mkDate 2021 3 1)))).
Proof.
  apply (non_future_target_rejected host_utc (mkDate 2021 3 1) (mkDate 2021 3 1));
    reflexivity.
Defined.

(** C4, as stated, fails: against the reference 2022-01-01 the target
    2021-06-01 is rejected with a message that names neither January 2022 nor
    the year 2022. *)
Lemma message_ignores_reference :
  exists e,
    calcularMesesHastaFecha host_utc "2021-06-01" "2022-01-01" = Throw e /\
    kind e = NonFutureTarget /\
    in_words (mkDate 2022 1 1) = "enero 2022" /\
    includes (in_words (mkDate 2022 1 1)) (message e) = false /\
    includes "2022" (message e) = false.
Proof. eexists. vm_compute. repeat split; reflexivity. Qed.

(** C4, amended: the message of the non-future error contains the target
    string as it was passed and the fixed words "marzo 2021", which name the
    configured date [LAST_DATA_DATE] whatever reference was passed. *)
Theorem non_future_message (h : DateHost) (T R : string) (e : JsError) :
  calcularMesesHastaFecha h T R = Throw e -> kind e = NonFutureTarget ->
  message e = non_future_text T /\
  includes T (message e) = true /\
  includes (in_words (mkDate 2021 3 1)) (message e) = true /\
  iso (mkDate 2021 3 1) = LAST_DATA_DATE.
Proof.
  intros E K. destruct (calcular_throw h T R e E) as [-> | ->]; [discriminate|].
  cbn [message]. split; [reflexivity|]. split; [apply includes_middle|].
  split; [|reflexivity].
  change (in_words (mkDate 2021 3 1)) with "marzo 2021".
  replace (non_future_text T)
    with (("La fecha objetivo (" ++ T ++
           ") debe ser posterior a la última fecha disponible (")
          ++ "marzo 2021" ++ ").")
    by (rewrite !append_assoc; reflexivity).
  apply includes_middle.
Qed.

Lemma non_future_message_witness :
  message (mkError NonFutureTarget (non_future_text "2021-03-01"))
  = non_future_text "2021-03-01" /\
  includes "2021-03-01"
    (message (mkError NonFutureTarget (non_future_text "2021-03-01"))) = true /\
  includes (in_words (mkDate 2021 3 1))
    (message (mkError NonFutureTarget (non_future_text "2021-03-01"))) = true /\
  iso (mkDate 2021 3 1) = LAST_DATA_DATE.
Proof.
  apply (non_future_message host_utc "2021-03-01" "2021-03-01"); reflexivity.
Defined.

(** C5, as stated, fails: against the reference 2021-03-01 the shorthand
    "2021-03" and the date "2021-03-01" are both rejected, with messages that
    quote different strings. *)
Lemma shorthand_message_differs :
  calcularMesesHastaFecha host_utc "2021-03" "2021-03-01"
  <> calcularMesesHastaFecha host_utc "2021-03-01" "2021-03-01".
Proof. vm_compute. discriminate. Qed.

(** C5, amended: a string of the form "YYYY-MM" (seven characters with a
    dash) gives the same month count as the string completed with "-01", or
    an error of the same kind; the message of the non-future error quotes the
    string as it was passed. *)
Theorem shorthand_same_outcome (h : DateHost) (s R : string) :
  String.length s = 7%nat -> includes "-" s = true ->
  outcome_kind (calcularMesesHastaFecha h s R)
  = outcome_kind (calcularMesesHastaFecha h (s ++ "-01") R) /\
  (forall e, calcularMesesHastaFecha h s R = Throw e ->
             kind e = NonFutureTarget -> message e = non_future_text s) /\
  (forall e, calcularMesesHastaFecha h (s ++ "-01") R = Throw e ->
             kind e = NonFutureTarget -> message e = non_future_text (s ++ "-01")).
Proof.
  intros L I. split; [|split].
  - rewrite (calcular_shorthand h s R L I).
    destruct (calcularMesesHastaFecha h (s ++ "-01") R) as [n | e]; [reflexivity|].
    destruct e as [[] m]; reflexivity.
  - intros e E K. destruct (calcular_throw h _ _ _ E) as [-> | ->];
      [discriminate | reflexivity].
  - intros e E K. destruct (calcular_throw h _ _ _ E) as [-> | ->];
      [discriminate | reflexivity].
Qed.

Lemma shorthand_same_outcome_witness :
  outcome_kind (calcularMesesHastaFecha host_utc "2022-05" "2021-03-01")
  = outcome_kind (calcularMesesHastaFecha host_utc ("2022-05" ++ "-01") "2021-03-01") /\
  (forall e, calcularMesesHastaFecha host_utc "2022-05" "2021-03-01" = Throw e ->
             kind e = NonFutureTarget -> message e = non_future_text "2022-05") /\
  (forall e, calcularMesesHastaFecha host_utc ("2022-05" ++ "-01") "2021-03-01" = Throw e ->
             kind e = NonFutureTarget ->
             message e = non_future_text ("2022-05" ++ "-01")).
Proof.
  apply (shorthand_same_outcome host_utc "2022-05" "2021-03-01"); reflexivity.
Defined.

End CalculatorStatements.

(** ** The submit listener: statements *)

Section ListenerStatements.

Local Open Scope string_scope.

Import Sample.

(** C3, as stated, fails: with the scenario empty and both horizon fields
    empty, the submission fails for the missing horizon, not for the missing
    scenario. *)
Lemma empty_scenario_without_horizon :
  escenario_value (page "" "" "" "") = "" /\
  completion (browser host_utc backend_ok) (page "" "" "" "") = Throw missing_horizon /\
  kind missing_horizon = MissingHorizon.
Proof. vm_compute. repeat split; reflexivity. Qed.

(** C3, amended: the scenario is read first and checked once the horizon is
    resolved.  A submission with an empty scenario fails with MissingScenario
    when the horizon resolves (the calculator accepts the target date, or
    there is no target date and a manual horizon is given), with the
    calculator's own error when it rejects the target date, and with
    MissingHorizon when both horizon fields are empty; it issues no
    request. *)
Theorem empty_scenario_failure (b : Browser) (w : World) :
  escenario_value w = "" ->
  (forall meses,
     fechaObjetivo_value w <> "" ->
     calcularMesesHastaFecha (date_host b) (fechaObjetivo_value w) LAST_DATA_DATE
       = Normal meses ->
     completion b w = Throw missing_scenario) /\
  (forall e,
     fechaObjetivo_value w <> "" ->
     calcularMesesHastaFecha (date_host b) (fechaObjetivo_value w) LAST_DATA_DATE
       = Throw e ->
     completion b w = Throw e) /\
  (fechaObjetivo_value w = "" -> horizonte_value w <> "" ->
   completion b w = Throw missing_scenario) /\
  (fechaObjetivo_value w = "" -> horizonte_value w = "" ->
   completion b w = Throw missing_horizon) /\
  issued b w = [].
Proof.
  intros S.
  assert (I : issued b w = []).
  { unfold issued. rewrite requests_after, S.
    destruct (resolve_horizon b w); apply skipn_length. }
  repeat split; trivial.
  - intros meses F C. rewrite completion_unfold. unfold resolve_horizon.
    apply String.eqb_neq in F. now rewrite F, C, S.
  - intros e F C. rewrite completion_unfold. unfold resolve_horizon.
    apply String.eqb_neq in F. now rewrite F, C.
  - intros F H. rewrite completion_unfold. unfold resolve_horizon.
    apply String.eqb_neq in H. now rewrite F, H, S.
  - intros F H. rewrite completion_unfold. unfold resolve_horizon.
    now rewrite F, H.
Qed.

Lemma empty_scenario_failure_witness :
  completion (browser host_utc backend_ok) (page "12" "" "" "") = Throw missing_scenario
  /\ issued (browser host_utc backend_ok) (page "12" "" "" "") = [].
Proof.
  destruct (empty_scenario_failure (browser host_utc backend_ok) (page "12" "" "" "")
              eq_refl) as (_ & _ & M & _ & I).
  split; [apply M; [reflexivity | discriminate] | exact I].
Defined.

(** C6: a submission with the target date and the manual horizon both empty
    fails with MissingHorizon, and no request leaves: the requests on record
    are those there were, none of them issued by this submission. *)
Theorem submission_without_horizon (b : Browser) (w : World) :
  fechaObjetivo_value w = "" -> horizonte_value w = "" ->
  completion b w = Throw missing_horizon /\
  kind missing_horizon = MissingHorizon /\
  issued b w = [] /\
  requests (submit_listener b w) = requests w /\
  errorMessage_textContent (submit_listener b w) = "❌ " ++ message missing_horizon.
Proof.
  intros F H.
  assert (C : completion b w = Throw missing_horizon).
  { rewrite completion_unfold. unfold resolve_horizon. now rewrite F, H. }
  assert (Q : requests (submit_listener b w) = requests w).
  { rewrite requests_after. unfold resolve_horizon. now rewrite F, H. }
  repeat split; trivial.
  - unfold issued. rewrite Q. apply skipn_length.
  - pose proof (views_after b w) as V. cbv zeta in V. rewrite C in V. apply V.
Qed.

Lemma submission_without_horizon_witness :
  completion (browser host_utc backend_ok) (page "" "RCP45" "" "") = Throw missing_horizon /\
  kind missing_horizon = MissingHorizon /\
  issued (browser host_utc backend_ok) (page "" "RCP45" "" "") = [] /\
  requests (submit_listener (browser host_utc backend_ok) (page "" "RCP45" "" ""))
  = requests (page "" "RCP45" "" "") /\
  errorMessage_textContent
    (submit_listener (browser host_utc backend_ok) (page "" "RCP45" "" ""))
  = "❌ " ++ message missing_horizon.
Proof.
  apply (submission_without_horizon (browser host_utc backend_ok) (page "" "RCP45" "" ""));
    reflexivity.
Defined.

(** C7: however the [try] block of a submission completes, normally or with
    any error, the listener leaves the submit button enabled and with its
    label at rest. *)
Theorem submit_control_restored (b : Browser) (w : World) :
  calcularBtn_disabled (loading w) = true /\
  calcularBtn_disabled (submit_listener b w) = false /\
  calcularBtn_textContent (submit_listener b w) = "Calcular riesgo de sequía".
Proof.
  rewrite submit_listener_unfold.
  destruct (try_block b (loading w)) as [[u | e] w']; repeat split.
Qed.

(** C8: after a submission exactly one of the two views is visible.  When
    the [try] block completes normally it is the results section, the banner
    staying hidden; when it throws it is the banner, with the message of the
    error, the results section hidden and the table emptied. *)
Theorem one_view_after_submission (b : Browser) (w : World) :
  let w' := submit_listener b w in
  xorb (visible (resultsSection_classList w')) (visible (errorMessage_classList w'))
  = true /\
  match completion b w with
  | Normal _ =>
      visible (resultsSection_classList w') = true /\
      visible (errorMessage_classList w') = false
  | Throw e =>
      visible (errorMessage_classList w') = true /\
      visible (resultsSection_classList w') = false /\
      prediccionTbody_rows w' = [] /\
      errorMessage_textContent w' = "❌ " ++ message e
  end.
Proof.
  pose proof (views_after b w) as V. cbv zeta in *.
  split; [|exact V].
  destruct (completion b w).
  - destruct V as [-> ->]. reflexivity.
  - destruct V as (-> & -> & _). reflexivity.
Qed.

End ListenerStatements.

(** ** Rows and horizons: statements *)

Section RowStatements.

Local Open Scope string_scope.

Import Sample.

(** C9, as stated, fails: a level of 10^21 is a number like any other, and
    [toFixed] writes it in exponent notation, with no decimal places. *)
Lemma huge_level_in_exponent_notation :
  exists r,
    fila (entry_value (mkEntry "2022-05" (of_Z (10 ^ 21)) "Alerta" true false)) = Done r /\
    nivel_text r = "1e+21" /\
    has_decimals 2 (nivel_text r) = false.
Proof. eexists. vm_compute. repeat split; reflexivity. Qed.

(** C9, amended: for every month entry whose level is a finite number below
    10^21 in magnitude, the row carries the situation class chosen by
    precedence (drought, else low level, else normal), the level with exactly
    two decimal places, and "Sí" or "No" for each flag, classed as true or
    false; the entry {fecha "2022-05", nivel 12.345, es_sequia true,
    es_nivel_bajo false} gives the level "12.35", the drought class, "Sí" and
    "No". *)
Theorem month_row (e : MonthEntry) :
  below_1e21 (nivel e) = true ->
  (exists r,
     fila (entry_value e) = Done r /\
     fecha_text r = fecha e /\
     situacion_text r = situacion e /\
     situacionClase r = situation_class e /\
     nivel_text r = toFixed 2 (nivel e) /\
     has_decimals 2 (nivel_text r) = true /\
     sequia_text r = si_no (es_sequia e) /\
     bajo_text r = si_no (es_nivel_bajo e) /\
     sequiaClase r = (if es_sequia e then "boolean-true" else "boolean-false") /\
     bajoclase r = (if es_nivel_bajo e then "boolean-true" else "boolean-false")) /\
  fila (entry_value
          (mkEntry "2022-05" (div (of_Z 12345) (of_Z 1000)) "Alerta" true false))
  = Done {| fecha_text := "2022-05";
            nivel_text := "12.35";
            situacionClase := "situacion-sequia";
            situacion_text := "Alerta";
            sequiaClase := "boolean-true";
            sequia_text := "Sí";
            bajoclase := "boolean-false";
            bajo_text := "No" |}.
Proof.
  intros B. split; [|vm_compute; reflexivity].
  destruct e as [f n s q l]. cbn [nivel] in B.
  eexists. split; [reflexivity|]. cbn -[toFixed has_decimals].
  repeat split.
  - apply toFixed_has_decimals; [discriminate | exact B].
Qed.

Lemma month_row_witness :
  below_1e21 (nivel (mkEntry "2022-06" (div (of_Z 705) (of_Z 100)) "Normal" false true))
  = true /\
  exists r,
    fila (entry_value (mkEntry "2022-06" (div (of_Z 705) (of_Z 100)) "Normal" false true))
    = Done r /\
    situacionClase r = "situacion-bajo" /\
    has_decimals 2 (nivel_text r) = true.
Proof.
  split; [vm_compute; reflexivity|].
  destruct (month_row (mkEntry "2022-06" (div (of_Z 705) (of_Z 100)) "Normal" false true)
              ltac:(vm_compute; reflexivity))
    as [(r & F & _ & _ & C & _ & D & _) _].
  exists r. repeat split; assumption.
Defined.

(** C10, as stated, fails on both counts: five hours behind UTC the target
    2021-03-15 counts one month from 2021-03-01, and that is the horizon
    sent; and with no scenario chosen the submission sends nothing. *)
Lemma same_month_behind_utc :
  calcularMesesHastaFecha host_utc_minus_5 "2021-03-15" LAST_DATA_DATE = Normal 1 /\
  map (fun r => horizonte_meses (body r))
      (issued (browser host_utc_minus_5 backend_ok) (page "" "RCP45" "" "2021-03-15"))
  = [of_Z 1] /\
  issued (browser host_utc backend_ok) (page "" "" "" "2021-03-15") = [].
Proof. vm_compute. repeat split; reflexivity. Qed.

(** C10, amended: for every target date in the calendar month of the
    reference date and on a later day, the calculator raises no error; where
    local time is UTC or ahead of it the count is 0, and a submission of such
    a target against [LAST_DATA_DATE] with a scenario chosen issues one
    request, with [horizonte_meses] 0. *)
Theorem same_month_later_day (b : Browser) (T R : CalDate) (w : World) :
  valid_date T = true -> valid_date R = true ->
  year T = year R -> month T = month R -> day R < day T ->
  (exists meses,
     calcularMesesHastaFecha (date_host b) (iso T) (iso R) = Normal meses) /\
  (east_of_utc (date_host b) ->
   calcularMesesHastaFecha (date_host b) (iso T) (iso R) = Normal 0 /\
   (iso R = LAST_DATA_DATE -> fechaObjetivo_value w = iso T ->
    escenario_value w <> "" ->
    issued b w = [predict_request b w (of_Z 0)] /\
    horizonte_meses (body (predict_request b w (of_Z 0))) = S754_zero false)).
Proof.
  intros VT VR Y M D.
  assert (L : later T R = true).
  { unfold later. rewrite Y, M, Z.eqb_refl, Z.eqb_refl.
    apply Z.ltb_lt in D. rewrite D. now rewrite !orb_true_r. }
  split.
  - rewrite calcular_iso, L by assumption. eauto.
  - intros E.
    assert (C : calcularMesesHastaFecha (date_host b) (iso T) (iso R) = Normal 0).
    { rewrite calcular_east_of_utc by assumption. f_equal. lia. }
    split; [exact C|]. intros HR HT S. split; [|reflexivity].
    unfold issued. rewrite requests_after. unfold resolve_horizon.
    rewrite HT, <- HR, C.
    replace (iso T =? "") with false
      by (symmetry; apply String.eqb_neq; intros Z;
          pose proof (length_iso T) as N; rewrite Z in N; discriminate).
    apply String.eqb_neq in S. rewrite S. cbn [negb]. apply skipn_length_app.
Qed.

Lemma same_month_later_day_witness :
  (exists meses,
     calcularMesesHastaFecha host_utc (iso (mkDate 2021 3 15)) (iso (mkDate 2021 3 1))
     = Normal meses) /\
  calcularMesesHastaFecha host_utc (iso (mkDate 2021 3 15)) (iso (mkDate 2021 3 1))
  = Normal 0 /\
  issued (browser host_utc backend_ok) (page "" "RCP45" "" "2021-03-15")
  = [predict_request (browser host_utc backend_ok) (page "" "RCP45" "" "2021-03-15")
       (of_Z 0)].
Proof.
  destruct (same_month_later_day (browser host_utc backend_ok)
              (mkDate 2021 3 15) (mkDate 2021 3 1) (page "" "RCP45" "" "2021-03-15")
              eq_refl eq_refl eq_refl eq_refl ltac:(reflexivity))
    as [N U].
  assert (E : east_of_utc host_utc) by (intros t; cbn; unfold msPerDay; lia).
  destruct (U E) as [C I].
  destruct (I eq_refl eq_refl ltac:(discriminate)) as [I' _].
  repeat split; assumption.
Defined.

End RowStatements.

(** ** More on the calculator *)

Section CalculatorMore.

Local Open Scope string_scope.

Lemma later_spec (a b : CalDate) : later a b = true <-> later_prop a b.
Proof.
  unfold later, later_prop.
  destruct (Z.ltb_spec (year b) (year a)), (Z.eqb_spec (year a) (year b)),
    (Z.ltb_spec (month b) (month a)), (Z.eqb_spec (month a) (month b)),
    (Z.ltb_spec (day b) (day a)); cbn; split; intros; try discriminate;
    try reflexivity; try lia; auto.
Qed.

Lemma later_month_spec (a b : CalDate) :
  later_month a b = true <->
  year b < year a \/ (year a = year b /\ month b < month a).
Proof.
  unfold later_month.
  destruct (Z.ltb_spec (year b) (year a)), (Z.eqb_spec (year a) (year b)),
    (Z.ltb_spec (month b) (month a)); cbn; split; intros; try discriminate;
    try reflexivity; try lia; auto.
Qed.

Lemma behind_utc_minus_5 : behind_utc host_utc_minus_5.
Proof. intros t. cbn. unfold msPerDay, msPerHour. lia. Qed.

Lemma east_of_utc_utc : east_of_utc host_utc.
Proof. intros t. cbn. unfold msPerDay. lia. Qed.

(** The count of a later target is never negative, whichever side of UTC the
    host is on. *)
Theorem count_never_negative (h : DateHost) (T R : CalDate) :
  east_of_utc h \/ behind_utc h ->
  valid_date T = true -> valid_date R = true -> later T R = true ->
  exists meses,
    calcularMesesHastaFecha h (iso T) (iso R) = Normal meses /\ 0 <= meses.
Proof.
  intros H VT VR L. pose proof (proj1 (later_spec T R) L) as P.
  pose proof (valid_date_inv T VT) as (_ & MT & DT).
  pose proof (valid_date_inv R VR) as (_ & MR & DR).
  unfold later_prop in P. destruct H as [E | B].
  - rewrite calcular_east_of_utc by assumption. eexists; split; [reflexivity|]. lia.
  - rewrite calcular_behind_utc by assumption. eexists; split; [reflexivity|].
    unfold on_first.
    destruct (Z.eqb_spec (day R) 1), (Z.eqb_spec (day T) 1); lia.
Qed.

Lemma count_never_negative_witness :
  exists meses,
    calcularMesesHastaFecha host_utc_minus_5
      (iso (mkDate 2021 4 1)) (iso (mkDate 2021 3 15)) = Normal meses /\
    0 <= meses.
Proof.
  apply (count_never_negative host_utc_minus_5 (mkDate 2021 4 1) (mkDate 2021 3 15));
    [right; exact behind_utc_minus_5 | reflexivity | reflexivity | reflexivity].
Defined.






(** At or east of UTC the count grows with the target: a later target never
    counts fewer months from the same reference. *)
Theorem count_monotone (h : DateHost) (T T' R : CalDate) :
  east_of_utc h ->
  valid_date T = true -> valid_date T' = true -> valid_date R = true ->
  later T R = true -> later T' T = true ->
  exists meses meses',
    calcularMesesHastaFecha h (iso T) (iso R) = Normal meses /\
    calcularMesesHastaFecha h (iso T') (iso R) = Normal meses' /\
    meses <= meses'.
Proof.
  intros E VT VT' VR L L'.
  pose proof (proj1 (later_spec T R) L) as P.
  pose proof (proj1 (later_spec T' T) L') as P'.
  assert (L2 : later T' R = true)
    by (apply later_spec; unfold later_prop in *; lia).
  pose proof (valid_date_inv T VT) as (_ & MT & _).
  pose proof (valid_date_inv T' VT') as (_ & MT' & _).
  rewrite !calcular_east_of_utc by assumption.
  do 2 eexists. repeat split. unfold later_prop in *. lia.
Qed.

Lemma count_monotone_witness :
  exists meses meses',
    calcularMesesHastaFecha host_utc (iso (mkDate 2021 12 31)) (iso (mkDate 2021 3 1))
    = Normal meses /\
    calcularMesesHastaFecha host_utc (iso (mkDate 2022 1 1)) (iso (mkDate 2021 3 1))
    = Normal meses' /\
    meses <= meses'.
Proof.
  apply (count_monotone host_utc (mkDate 2021 12 31) (mkDate 2022 1 1) (mkDate 2021 3 1));
    [exact east_of_utc_utc | reflexivity ..].
Defined.

(** At or east of UTC the count of a later target is 0 exactly when it lies
    in the reference's calendar month, and at least 1 otherwise. *)
Theorem count_zero_in_same_month (h : DateHost) (T R : CalDate) :
  east_of_utc h ->
  valid_date T = true -> valid_date R = true -> later T R = true ->
  exists meses,
    calcularMesesHastaFecha h (iso T) (iso R) = Normal meses /\
    (meses = 0 <-> year T = year R /\ month T = month R) /\
    (later_month T R = true <-> 1 <= meses).
Proof.
  intros E VT VR L. pose proof (proj1 (later_spec T R) L) as P.
  pose proof (valid_date_inv T VT) as (_ & MT & _).
  pose proof (valid_date_inv R VR) as (_ & MR & _).
  rewrite calcular_east_of_utc by assumption.
  eexists; split; [reflexivity|]. rewrite later_month_spec.
  unfold later_prop in P. lia.
Qed.

Lemma count_zero_in_same_month_witness :
  exists meses,
    calcularMesesHastaFecha host_utc (iso (mkDate 2021 3 31)) (iso (mkDate 2021 3 1))
    = Normal meses /\
    (meses = 0 <-> 2021 = 2021 /\ 3 = 3) /\
    (later_month (mkDate 2021 3 31) (mkDate 2021 3 1) = true <-> 1 <= meses).
Proof.
  apply (count_zero_in_same_month host_utc (mkDate 2021 3 31) (mkDate 2021 3 1));
    [exact east_of_utc_utc | reflexivity ..].
Defined.

End CalculatorMore.

(** ** More on submissions: requests and failures *)

Section SubmissionMore.

Variable b : Browser.

Local Open Scope string_scope.

(** The requests of a submission: none, or the one built from the form. *)
Lemma issued_cases (w : World) :
  issued b w =
  match resolve_horizon b w with
  | Throw _ => []
  | Normal h =>
      if escenario_value w =? "" then [] else [predict_request b w h]
  end.
Proof.
  unfold issued. rewrite requests_after.
  destruct (resolve_horizon b w); [|apply skipn_length].
  destruct (escenario_value w =? ""); [apply skipn_length | apply skipn_length_app].
Qed.

Lemma shown_after (w : World) (e : JsError) :
  completion b w = Throw e ->
  shown b w = "❌ " ++ message e /\
  visible (errorMessage_classList (submit_listener b w)) = true /\
  visible (resultsSection_classList (submit_listener b w)) = false.
Proof.
  intros C. pose proof (views_after b w) as V. cbv zeta in V. rewrite C in V.
  unfold shown. intuition.
Qed.

(** A target date, when one is entered, decides the horizon, whatever the
    manual selector holds: the count of the calculator is what is sent, and
    when the calculator rejects the date the submission fails with its error
    and sends nothing. *)
Theorem target_date_decides (w : World) :
  fechaObjetivo_value w <> "" ->
  (forall e,
     calcularMesesHastaFecha (date_host b) (fechaObjetivo_value w) LAST_DATA_DATE
       = Throw e ->
     completion b w = Throw e /\ issued b w = [] /\ shown b w = "❌ " ++ message e) /\
  (forall meses,
     calcularMesesHastaFecha (date_host b) (fechaObjetivo_value w) LAST_DATA_DATE
       = Normal meses ->
     escenario_value w <> "" ->
     map (fun r => horizonte_meses (body r)) (issued b w) = [of_Z meses]).
Proof.
  intros F. apply String.eqb_neq in F. split.
  - intros e C.
    assert (K : completion b w = Throw e)
      by (rewrite completion_unfold; unfold resolve_horizon; now rewrite F, C).
    split; [exact K|]. split; [|apply (shown_after w e K)].
    rewrite issued_cases. unfold resolve_horizon. now rewrite F, C.
  - intros meses C S. apply String.eqb_neq in S.
    rewrite issued_cases. unfold resolve_horizon. now rewrite F, C, S.
Qed.



End SubmissionMore.

(** ** More on submissions: what the backend answers *)

Section ResponsesMore.

Variable b : Browser.

Local Open Scope string_scope.

Lemma joined_objects (pss : list (list (string * value))) (sep : string) :
  Forall (fun ps => has_key "toString" ps = false) pss ->
  (fix join (l : list value) (sep : string) : Try string :=
     match l with
     | [] => Done ""
     | x :: rest =>
         match
           match x with
           | VUndefined | VNull => Done ""
           | _ => ToString x
           end
         with
         | Faulted f => Faulted f
         | Done sx =>
             match join rest "," with
             | Faulted f => Faulted f
             | Done sr => Done (sep ++ sx ++ sr)
             end
         end
     end) (map VObject pss) sep
  = Done (joined sep (map (fun _ => "[object Object]") pss)).
Proof.
  intros H. revert sep. induction H as [|ps pss Hps _ IH]; intros sep.
  - reflexivity.
  - cbn [map joined]. cbn [ToString]. rewrite Hps, IH. reflexivity.
Qed.

(** An array of plain objects reads as so many times ["[object Object]"],
    with commas. *)
Lemma ToString_objects (pss : list (list (string * value))) :
  Forall (fun ps => has_key "toString" ps = false) pss ->
  ToString (VArray (map VObject pss))
  = Done (joined "" (map (fun _ => "[object Object]") pss)).
Proof. intros H. cbn [ToString]. now apply joined_objects. Qed.

(** When the backend answers with a status that is not [ok] and a JSON
    object, the submission fails with the object's [detail]: a non-empty
    string is shown as it is, after the cross; without a [detail], or with an
    empty, null, false or zero one, the fixed text "Error en la predicción."
    is shown.  The results stay hidden. *)
Theorem rejection_shown (w : World) (h : number) (props : list (string * value)) :
  resolve_horizon b w = Normal h -> escenario_value w <> "" ->
  fetch b (predict_request b w h)
  = Responded {| ok := false; json := Json (VObject props) |} ->
  (forall s, lookup "detail" props = VString s -> s <> "" ->
             completion b w = Throw (mkError RemoteRejection s) /\
             shown b w = "❌ " ++ s) /\
  (ToBoolean (lookup "detail" props) = false ->
   completion b w = Throw (mkError RemoteRejection "Error en la predicción.") /\
   shown b w = "❌ Error en la predicción.") /\
  visible (resultsSection_classList (submit_listener b w)) = false /\
  prediccionTbody_rows (submit_listener b w) = [].
Proof.
  intros R S F. apply String.eqb_neq in S.
  assert (C : completion b w = Throw (rejection b (VObject props)))
    by (rewrite completion_unfold, R, S, F; reflexivity).
  pose proof (views_after b w) as V. cbv zeta in V. rewrite C in V.
  destruct V as (_ & V2 & V3 & V4).
  split; [|split; [|split; assumption]].
  - intros s D N. apply String.eqb_neq in N.
    assert (E : rejection b (VObject props) = mkError RemoteRejection s).
    { unfold rejection. cbn [Get]. rewrite D. cbn [ToBoolean ToString].
      now rewrite N. }
    unfold shown. rewrite C, V4, E. split; reflexivity.
  - intros D.
    assert (E : rejection b (VObject props)
                = mkError RemoteRejection "Error en la predicción.").
    { unfold rejection. cbn [Get]. now rewrite D. }
    unfold shown. rewrite C, V4, E. split; reflexivity.
Qed.

(** When the [detail] of a rejection is a list of plain objects, as the
    backend's validation errors are, what is shown is not their content but
    ["[object Object]"] once for each, with commas. *)
Theorem rejection_with_object_list (w : World) (h : number)
    (props : list (string * value)) (pss : list (list (string * value))) :
  resolve_horizon b w = Normal h -> escenario_value w <> "" ->
  fetch b (predict_request b w h)
  = Responded {| ok := false; json := Json (VObject props) |} ->
  lookup "detail" props = VArray (map VObject pss) ->
  Forall (fun ps => has_key "toString" ps = false) pss ->
  completion b w
  = Throw (mkError RemoteRejection
             (joined "" (map (fun _ => "[object Object]") pss))) /\
  shown b w = "❌ " ++ joined "" (map (fun _ => "[object Object]") pss).
Proof.
  intros R S F D P. apply String.eqb_neq in S.
  assert (C : completion b w
              = Throw (mkError RemoteRejection
                         (joined "" (map (fun _ => "[object Object]") pss)))).
  { rewrite completion_unfold, R, S, F. cbn [json ok negb].
    unfold rejection. cbn [Get]. rewrite D. cbn [ToBoolean].
    now rewrite ToString_objects. }
  split; [exact C|]. now destruct (shown_after b w _ C) as [-> _].
Qed.

(** When the call to the backend fails below HTTP, or the body of the answer
    is not JSON, the submission fails with the engine's reason, which is what
    the banner shows; the request has left all the same. *)
Theorem transport_failure_shown (w : World) (h : number) (reason : string) :
  resolve_horizon b w = Normal h -> escenario_value w <> "" ->
  (fetch b (predict_request b w h) = NetworkFailure reason \/
   exists status,
     fetch b (predict_request b w h)
     = Responded {| ok := status; json := NotJson reason |}) ->
  completion b w = Throw (mkError TransportFailure reason) /\
  shown b w = "❌ " ++ reason /\
  issued b w = [predict_request b w h] /\
  visible (resultsSection_classList (submit_listener b w)) = false.
Proof.
  intros R S F. apply String.eqb_neq in S.
  assert (C : completion b w = Throw (mkError TransportFailure reason)).
  { rewrite completion_unfold, R, S. destruct F as [-> | [status ->]]; reflexivity. }
  destruct (shown_after b w _ C) as (T & _ & V).
  repeat split; trivial.
  rewrite issued_cases, R, S. reflexivity.
Qed.

End ResponsesMore.

(** ** More on rendering *)

Section RenderingMore.

Variable b : Browser.

Local Open Scope string_scope.

Lemma remove_remove (token : string) (l : list string) :
  remove token (remove token l) = remove token l.
Proof.
  unfold remove. induction l as [|t l IH]; cbn; [reflexivity|].
  destruct (negb (token =? t)) eqn:E; cbn; [rewrite E; f_equal|]; exact IH.
Qed.

Lemma insert_insert (token : string) (l : list string) :
  insert token (insert token l) = insert token l.
Proof. unfold insert at 1. now rewrite contains_insert. Qed.

(** [mostrarError] keeps no trace of an earlier error: after two calls the
    page is the one the second call alone gives.  It writes the banner, hides
    the results and empties the table, and leaves the button, the risk box,
    the requests and the console as they are. *)
Theorem mostrarError_last_wins (m1 m2 : string) (w : World) :
  mostrarError m2 (mostrarError m1 w) = mostrarError m2 w /\
  errorMessage_textContent (mostrarError m2 w) = "❌ " ++ m2 /\
  visible (errorMessage_classList (mostrarError m2 w)) = true /\
  visible (resultsSection_classList (mostrarError m2 w)) = false /\
  prediccionTbody_rows (mostrarError m2 w) = [] /\
  calcularBtn_disabled (mostrarError m2 w) = calcularBtn_disabled w /\
  calcularBtn_textContent (mostrarError m2 w) = calcularBtn_textContent w /\
  riesgoBox_classList (mostrarError m2 w) = riesgoBox_classList w /\
  riesgoGlobal_textContent (mostrarError m2 w) = riesgoGlobal_textContent w /\
  requests (mostrarError m2 w) = requests w /\
  console (mostrarError m2 w) = console w.
Proof.
  split.
  - destruct w. unfold mostrarError. page_simpl.
    rewrite insert_insert, remove_remove. reflexivity.
  - unfold visible. page_simpl. repeat split.
    + apply contains_insert.
    + apply contains_remove.
Qed.

Lemma fila_entry (e : MonthEntry) : fila (entry_value e) = Done (row_of e).
Proof. destruct e as [f n s [] []]; reflexivity. Qed.

Lemma forEach_entries (es : list MonthEntry) (w : World) :
  forEach_fila b (map entry_value es) w
  = (Normal tt,
     set_prediccionTbody_rows (prediccionTbody_rows w ++ map row_of es) w).
Proof.
  revert w. induction es as [|e es IH]; intros w.
  - cbn [map forEach_fila]. rewrite app_nil_r. destruct w; reflexivity.
  - cbn [map forEach_fila]. unfold bind at 1. rewrite fila_entry.
    cbn [try ret]. unfold bind at 1. cbn [modify]. rewrite IH. page_simpl.
    rewrite <- app_assoc. reflexivity.
Qed.

(** Rendering a forecast whose risk label gives a class name.  The table
    holds one row for each month entry, in order, whatever rows it held
    before; the risk box has the base class and the label in lower case,
    whatever classes it had before; the label and the drought line are
    written, and the results section is visible. *)
Lemma mostrarResultados_forecast (f : Forecast) (w : World) :
  valid_token (toLowerCase b (riesgo_global f)) = true ->
  mostrarResultados b (forecast_value f) w = (Normal tt, rendered b f w).
Proof.
  intros V. unfold valid_token in V. apply andb_true_iff in V.
  destruct V as [V1 V2]. apply negb_true_iff in V1, V2.
  unfold mostrarResultados, forecast_value.
  unfold bind at 1. cbn [modify].
  unfold bind at 1. cbn [Get lookup String.eqb Ascii.eqb Bool.eqb try ret].
  unfold bind at 1. cbn [ToDOMString ToString try ret].
  unfold bind at 1. cbn [modify].
  unfold bind at 1. cbn [modify].
  unfold bind at 1. cbn [call_toLowerCase try ret].
  unfold bind at 1. cbn [gets]. page_simpl.
  unfold bind at 1. unfold add. rewrite V1, V2. cbn [try ret].
  unfold bind at 1. cbn [modify].
  unfold bind at 1. cbn [Get lookup String.eqb Ascii.eqb Bool.eqb try ret].
  cbv zeta.
  unfold bind at 1. cbn [modify].
  unfold bind at 1. cbn [modify].
  unfold bind at 1. cbn [Get lookup String.eqb Ascii.eqb Bool.eqb try ret].
  rewrite forEach_entries. page_simpl. reflexivity.
Qed.

End RenderingMore.

(** ** More on submissions: rendering the answer *)

Section AnswersMore.

Variable b : Browser.

Local Open Scope string_scope.

Lemma same_form_refl (w : World) : same_form w w.
Proof. repeat split. Qed.

Lemma same_form_trans (w1 w2 w3 : World) :
  same_form w1 w2 -> same_form w2 w3 -> same_form w1 w3.
Proof. unfold same_form. intuition congruence. Qed.

Lemma forEach_fila_form (items : list value) :
  keeps same_form (forEach_fila b items).
Proof.
  pose proof same_form_refl. pose proof same_form_trans.
  induction items as [|mes rest IH]; cbn [forEach_fila].
  - keeps_step.
  - repeat keeps_step. repeat split.
Qed.

Lemma mostrarResultados_form (v : value) : keeps same_form (mostrarResultados b v).
Proof.
  pose proof same_form_refl. pose proof same_form_trans.
  pose proof forEach_fila_form.
  unfold mostrarResultados. cbv zeta. repeat keeps_step; repeat split.
Qed.

Lemma submit_listener_form (w : World) :
  same_form w
    (set_console (console w) (submit_listener b w)) /\
  console (submit_listener b w)
  = match completion b w with
    | Normal _ => console w
    | Throw e => (console w ++ [e])%list
    end.
Proof.
  assert (K : same_form (loading w) (snd (try_block b (loading w)))).
  { rewrite try_block_unfold.
    destruct (resolve_horizon b (loading w)); [|apply same_form_refl].
    destruct (escenario_value (loading w) =? ""); [apply same_form_refl|].
    cbv zeta.
    destruct (fetch b _) as [[o [v | reason]] | reason]; cbn [json ok];
      [| repeat split | repeat split].
    destruct (negb o); [repeat split|].
    eapply same_form_trans; [|apply (mostrarResultados_form v)]. repeat split. }
  unfold completion, same_form. rewrite submit_listener_unfold.
  destruct (try_block b (loading w)) as [[u | e] w']; cbn [snd fst] in *;
    destruct K as (K1 & K2 & K3 & K4 & K5); page_simpl;
    rewrite ?K1, ?K2, ?K3, ?K4, ?K5; repeat split.
Qed.

(** The listener reads the form and never writes to it: the four controls
    hold after a submission what they held before, so nothing is reset.  The
    console gets the error of a failed submission, once, and nothing from a
    successful one. *)
Theorem form_kept_console_logged (w : World) :
  horizonte_value (submit_listener b w) = horizonte_value w /\
  escenario_value (submit_listener b w) = escenario_value w /\
  nivelUsuario_value (submit_listener b w) = nivelUsuario_value w /\
  fechaObjetivo_value (submit_listener b w) = fechaObjetivo_value w /\
  console (submit_listener b w)
  = match completion b w with
    | Normal _ => console w
    | Throw e => (console w ++ [e])%list
    end.
Proof.
  destruct (submit_listener_form w) as [(F1 & F2 & F3 & F4 & _) C].
  page_simpl. repeat split; assumption.
Qed.

(** A submission that passes validation and gets an [ok] answer carrying a
    forecast whose risk label gives a class name: the [try] block completes
    normally; the table holds one row for each month entry, in order,
    whatever it held before; the risk box has the base class and the label
    in lower case and no class of an earlier forecast; the results are
    visible and the banner hidden. *)
Theorem forecast_rendered (w : World) (h : number) (f : Forecast) :
  resolve_horizon b w = Normal h -> escenario_value w <> "" ->
  fetch b (predict_request b w h)
  = Responded {| ok := true; json := Json (forecast_value f) |} ->
  valid_token (toLowerCase b (riesgo_global f)) = true ->
  completion b w = Normal tt /\
  prediccionTbody_rows (submit_listener b w) = map row_of (prediccion_mensual f) /\
  riesgoBox_classList (submit_listener b w)
  = insert (toLowerCase b (riesgo_global f)) ["riesgo-box"] /\
  riesgoGlobal_textContent (submit_listener b w) = riesgo_global f /\
  sequiaInfo_textContent (submit_listener b w) = drought_line (sequia_probable f) /\
  visible (resultsSection_classList (submit_listener b w)) = true /\
  visible (errorMessage_classList (submit_listener b w)) = false.
Proof.
  intros R S F V. apply String.eqb_neq in S.
  assert (C : completion b w = Normal tt).
  { rewrite completion_unfold, R, S, F. cbn [json ok negb].
    now rewrite mostrarResultados_forecast. }
  pose proof (views_after b w) as W. cbv zeta in W. rewrite C in W.
  destruct W as [W1 W2].
  assert (E : submit_listener b w
              = at_rest (rendered b f
                  (set_requests (requests w ++ [predict_request b w h])%list
                     (loading w)))).
  { rewrite submit_listener_unfold, try_block_unfold.
    change (resolve_horizon b (loading w)) with (resolve_horizon b w).
    change (escenario_value (loading w)) with (escenario_value w).
    rewrite R, S. cbv zeta.
    change (predict_request b (loading w) h) with (predict_request b w h).
    rewrite F. cbn [json ok negb].
    now rewrite mostrarResultados_forecast. }
  repeat split; trivial; rewrite E; unfold rendered; page_simpl; reflexivity.
Qed.

(** One statement of [mostrarResultados], run on the page. *)
Ltac render_step :=
  unfold bind at 1;
  cbn [modify gets try ret throw Get ToDOMString ToString call_toLowerCase fst].

Lemma render_without_label (props : list (string * value)) (w : World) :
  lookup "riesgo_global" props = VUndefined ->
  fst (mostrarResultados b (VObject props) w)
  = Throw (mkError HostFault (fault_text b (NullishProperty "toLowerCase"))).
Proof.
  intros L. unfold mostrarResultados.
  render_step. render_step. rewrite L. repeat render_step. reflexivity.
Qed.

Lemma render_bad_label (props : list (string * value)) (s : string) (w : World) :
  lookup "riesgo_global" props = VString s ->
  valid_token (toLowerCase b s) = false ->
  fst (mostrarResultados b (VObject props) w)
  = Throw (mkError HostFault (fault_text b (token_fault (toLowerCase b s)))).
Proof.
  intros L V. unfold mostrarResultados.
  assert (A : add (toLowerCase b s) ["riesgo-box"]
              = Faulted (token_fault (toLowerCase b s))).
  { unfold add, token_fault. unfold valid_token in V.
    destruct (toLowerCase b s =? ""); [reflexivity|].
    destruct (has_whitespace (toLowerCase b s)); [reflexivity | discriminate]. }
  render_step. render_step. rewrite L. do 5 render_step. page_simpl.
  rewrite A. repeat render_step. reflexivity.
Qed.

Lemma render_without_months (props : list (string * value)) (s : string) (w : World) :
  lookup "riesgo_global" props = VString s ->
  valid_token (toLowerCase b s) = true ->
  lookup "prediccion_mensual" props = VUndefined ->
  fst (mostrarResultados b (VObject props) w)
  = Throw (mkError HostFault (fault_text b (NullishProperty "forEach"))).
Proof.
  intros L V P. unfold valid_token in V. apply andb_true_iff in V.
  destruct V as [V1 V2]. apply negb_true_iff in V1, V2.
  unfold mostrarResultados.
  assert (A : add (toLowerCase b s) ["riesgo-box"]
              = Done (insert (toLowerCase b s) ["riesgo-box"]))
    by (unfold add; now rewrite V1, V2).
  render_step. render_step. rewrite L. do 5 render_step. page_simpl.
  rewrite A, P. cbv zeta. repeat render_step. reflexivity.
Qed.

(** The answer is not checked before it is rendered.  An [ok] answer that is
    [null], or an object without a risk label, or with a label that gives no
    class name (an empty one, or one with a space), or without the list of
    months, makes the submission fail with the engine's error for the first
    statement that cannot run; the banner shows it, and the results are
    hidden and the table emptied again. *)
Theorem malformed_answer_fails (w : World) (h : number) (v : value) :
  resolve_horizon b w = Normal h -> escenario_value w <> "" ->
  fetch b (predict_request b w h) = Responded {| ok := true; json := Json v |} ->
  forall fault,
    (v = VNull /\ fault = NullishProperty "riesgo_global") \/
    (exists props,
       v = VObject props /\ lookup "riesgo_global" props = VUndefined /\
       fault = NullishProperty "toLowerCase") \/
    (exists props s,
       v = VObject props /\ lookup "riesgo_global" props = VString s /\
       valid_token (toLowerCase b s) = false /\
       fault = token_fault (toLowerCase b s)) \/
    (exists props s,
       v = VObject props /\ lookup "riesgo_global" props = VString s /\
       valid_token (toLowerCase b s) = true /\
       lookup "prediccion_mensual" props = VUndefined /\
       fault = NullishProperty "forEach") ->
    completion b w = Throw (mkError HostFault (fault_text b fault)) /\
    shown b w = "❌ " ++ fault_text b fault /\
    visible (resultsSection_classList (submit_listener b w)) = false /\
    prediccionTbody_rows (submit_listener b w) = [].
Proof.
  intros R S F fault H. apply String.eqb_neq in S.
  assert (C : completion b w = Throw (mkError HostFault (fault_text b fault))).
  { rewrite completion_unfold, R, S, F. cbn [json ok negb].
    destruct H as [[-> ->] | [(props & -> & L & ->) | [(props & s & -> & L & V & ->)
                 | (props & s & -> & L & V & P & ->)]]].
    - reflexivity.
    - now apply render_without_label.
    - now apply render_bad_label.
    - now apply (render_without_months props s). }
  pose proof (views_after b w) as W. cbv zeta in W. rewrite C in W.
  unfold shown. intuition.
Qed.

End AnswersMore.

(** ** More on the level cell *)

Section LevelMore.

Local Open Scope string_scope.

Lemma substring_split (s : string) (j f : nat) :
  (j + f = String.length s)%nat ->
  substring 0 j s ++ substring j f s = s.
Proof.
  revert j f. induction s as [|c s IH]; intros j f H; cbn in H.
  - destruct j, f; try discriminate. reflexivity.
  - destruct j as [|j]; cbn.
    + destruct f as [|f]; [discriminate|]. cbn. f_equal.
      pose proof (IH 0%nat f ltac:(lia)) as E.
      destruct s; cbn in *; [destruct f; [reflexivity | discriminate]|].
      exact E.
    + f_equal. apply IH. lia.
Qed.

Lemma without_point_digits (a b : string) :
  all_digits a = true -> without_point (a ++ "." ++ b) = a ++ b.
Proof.
  induction a as [|c a IH]; intros H; [reflexivity|].
  cbn [all_digits] in H. apply andb_true_iff in H. destruct H as [Hc Ha].
  change ((String c a) ++ "." ++ b) with (String c (a ++ "." ++ b)).
  cbn [without_point].
  destruct (Ascii.eqb_spec c "."%char) as [-> | _]; [discriminate|].
  cbn [append]. f_equal. now apply IH.
Qed.

Lemma digits_number_zeros (k : nat) (s : string) :
  digits_number (zeros k ++ s) = digits_number s.
Proof.
  induction k as [|k IH]; [reflexivity|].
  rewrite <- IH. unfold digits_number. cbn [zeros append NilEmpty.uint_of_string].
  destruct (NilEmpty.uint_of_string (zeros k ++ s)) as [u|]; reflexivity.
Qed.

Lemma digits_number_decimal (n : Z) : 0 <= n -> digits_number (decimal n) = Some n.
Proof.
  intros H. unfold digits_number, decimal.
  set (d := N.to_uint (Z.to_N n)).
  assert (E : Z.of_N (N.of_uint d) = n)
    by (unfold d; rewrite Unsigned.of_to; now apply Z2N.id).
  rewrite <- E. clearbody d. clear E.
  destruct d; [reflexivity | ..];
    match goal with
    | |- context [ NilZero.string_of_uint ?x ] =>
        change (NilZero.string_of_uint x) with (NilEmpty.string_of_uint x);
        rewrite (NilEmpty.usu x)
    end; reflexivity.
Qed.

(** Read without its point, what [fixed_point] writes is the integer it was
    given. *)
Lemma fixed_point_reads_back (f : nat) (n : Z) :
  0 <= n -> f <> 0%nat ->
  digits_number (without_point (fixed_point f n)) = Some n.
Proof.
  intros Hn Hf. unfold fixed_point. destruct f as [|f]; [contradiction|].
  set (m0 := decimal n).
  set (m := if (String.length m0 <=? S f)%nat
            then zeros (S f + 1 - String.length m0) ++ m0 else m0).
  assert (Dm : all_digits m = true).
  { unfold m. destruct (_ <=? _)%nat.
    - rewrite all_digits_append, all_digits_zeros. apply all_digits_decimal.
    - apply all_digits_decimal. }
  assert (Lm : (S f + 1 <= String.length m)%nat).
  { unfold m. pose proof (length_decimal n) as L. fold m0 in L.
    destruct (Nat.leb_spec (String.length m0) (S f)).
    - rewrite length_append, length_zeros. lia.
    - lia. }
  rewrite without_point_digits by now apply all_digits_substring.
  rewrite substring_split by lia.
  unfold m. destruct (_ <=? _)%nat.
  - rewrite digits_number_zeros. now apply digits_number_decimal.
  - now apply digits_number_decimal.
Qed.

Lemma magnitude_nonneg (m : positive) (e : Z) : (0 <= magnitude m e)%Q.
Proof.
  unfold magnitude. apply Qmult_le_0_compat.
  - unfold Qle; cbn; lia.
  - apply Qpower_0_le. unfold Qle; cbn; lia.
Qed.

(** The level cell of a finite level below 10^21: after the sign, the
    notation of the integer nearest to a hundred times the level's magnitude,
    the larger of two that are as near, with the point before its last two
    digits.  So what the cell shows is the level to the nearest hundredth. *)
Theorem level_to_the_hundredth (s : bool) (m : positive) (e : Z) :
  below_1e21 (S754_finite s m e) = true ->
  exists (n : Z) (t : string),
    toFixed 2 (S754_finite s m e) = (if s then "-" else "") ++ t /\
    digits_number (without_point t) = Some n /\
    has_decimals 2 t = true /\
    (inject_Z n - (1 # 2) <= magnitude m e * 100 /\
     magnitude m e * 100 < inject_Z n + (1 # 2))%Q.
Proof.
  intros B. cbn [below_1e21] in B. apply negb_true_iff in B.
  exists (scaled_round 2 (magnitude m e)),
         (fixed_point 2 (scaled_round 2 (magnitude m e))).
  pose proof (magnitude_nonneg m e) as P.
  assert (R : (inject_Z (scaled_round 2 (magnitude m e)) - (1 # 2)
               <= magnitude m e * 100 /\
               magnitude m e * 100
               < inject_Z (scaled_round 2 (magnitude m e)) + (1 # 2))%Q).
  { unfold scaled_round. change (ten_to (Z.of_nat 2)) with (100 # 1)%Q.
    pose proof (Qfloor_le (magnitude m e * (100 # 1) + (1 # 2))) as L.
    pose proof (Qlt_floor (magnitude m e * (100 # 1) + (1 # 2))) as U.
    rewrite inject_Z_plus in U. change (inject_Z 1) with 1%Q in U.
    change 100%Q with (100 # 1)%Q. split; lra. }
  assert (N : 0 <= scaled_round 2 (magnitude m e)).
  { unfold scaled_round. change 0 with (Qfloor 0). apply Qfloor_resp_le.
    change (ten_to (Z.of_nat 2)) with (100 # 1)%Q. lra. }
  repeat split; try apply R.
  - cbn [toFixed]. now rewrite B.
  - apply fixed_point_reads_back; [exact N | discriminate].
  - destruct (fixed_point_shape 2 (scaled_round 2 (magnitude m e)) ltac:(discriminate))
      as (a & c & -> & Da & La & Dc & Lc).
    now apply has_decimals_shape.
Qed.

Lemma level_to_the_hundredth_witness :
  exists (n : Z) (t : string),
    toFixed 2 (S754_finite false 6949617174986097 (-49)) = "" ++ t /\
    digits_number (without_point t) = Some n /\
    has_decimals 2 t = true /\
    (inject_Z n - (1 # 2) <= magnitude 6949617174986097 (-49) * 100 /\
     magnitude 6949617174986097 (-49) * 100 < inject_Z n + (1 # 2))%Q.
Proof.
  apply (level_to_the_hundredth false 6949617174986097 (-49)).
  vm_compute. reflexivity.
Defined.

End LevelMore.

(** ** More on rendering: what does not depend on the page *)

Section Independence.

Variable b : Browser.

Local Open Scope string_scope.

Lemma forEach_fila_fst (items : list value) (w w' : World) :
  fst (forEach_fila b items w) = fst (forEach_fila b items w').
Proof.
  revert w w'. induction items as [|mes rest IH]; intros w w'; [reflexivity|].
  cbn [forEach_fila]. unfold bind, modify.
  destruct (fila mes) as [r | f]; cbn [try ret throw]; [|reflexivity].
  apply IH.
Qed.

Lemma forEach_fila_rows (items : list value) (w : World) :
  prediccionTbody_rows (snd (forEach_fila b items w))
  = (prediccionTbody_rows w ++ rows_rendered items)%list.
Proof.
  revert w. induction items as [|mes rest IH]; intros w.
  - cbn. now rewrite app_nil_r.
  - cbn [forEach_fila rows_rendered]. unfold bind, modify.
    destruct (fila mes) as [r | f]; cbn [try ret throw snd].
    + rewrite IH. page_simpl. now rewrite <- app_assoc.
    + now rewrite app_nil_r.
Qed.

(** Whether rendering an answer succeeds, and with which error it fails,
    does not depend on the page it is rendered on. *)
Lemma mostrarResultados_fst (v : value) (w w' : World) :
  fst (mostrarResultados b v w) = fst (mostrarResultados b v w').
Proof.
  unfold mostrarResultados, bind, modify, gets. cbv zeta.
  destruct (Get v "riesgo_global") as [r | f]; cbn [try ret throw fst];
    [|reflexivity].
  destruct (ToDOMString r) as [t | f]; cbn [try ret throw fst]; [|reflexivity].
  destruct (call_toLowerCase (toLowerCase b) r) as [l | f];
    cbn [try ret throw fst]; [|reflexivity].
  page_simpl.
  destruct (add l ["riesgo-box"]) as [c | f]; cbn [try ret throw fst];
    [|reflexivity].
  destruct (Get v "sequia_probable") as [s | f]; cbn [try ret throw fst];
    [|reflexivity].
  destruct (Get v "prediccion_mensual") as [p | f]; cbn [try ret throw fst];
    [|reflexivity].
  destruct p; try reflexivity. apply forEach_fila_fst.
Qed.

End Independence.

(** ** Rendering again, submitting again *)

Section Again.

Variable b : Browser.

Local Open Scope string_scope.

(** A forecast rendered over another leaves nothing of the first: the page
    is the one the second forecast alone gives, with its rows only and its
    risk class only. *)
Theorem mostrarResultados_last_wins (f1 f2 : Forecast) (w : World) :
  valid_token (toLowerCase b (riesgo_global f1)) = true ->
  valid_token (toLowerCase b (riesgo_global f2)) = true ->
  snd (mostrarResultados b (forecast_value f2)
         (snd (mostrarResultados b (forecast_value f1) w)))
  = snd (mostrarResultados b (forecast_value f2) w) /\
  prediccionTbody_rows (snd (mostrarResultados b (forecast_value f2) w))
  = map row_of (prediccion_mensual f2) /\
  riesgoBox_classList (snd (mostrarResultados b (forecast_value f2) w))
  = insert (toLowerCase b (riesgo_global f2)) ["riesgo-box"].
Proof.
  intros V1 V2. rewrite !mostrarResultados_forecast by assumption. cbn [snd].
  repeat split. destruct w. unfold rendered. page_simpl.
  now rewrite insert_insert.
Qed.

Lemma mostrarResultados_rows (v : value) (w : World) (u : unit) :
  fst (mostrarResultados b v w) = Normal u ->
  prediccionTbody_rows (snd (mostrarResultados b v w)) = answer_rows v.
Proof.
  unfold mostrarResultados, answer_rows, bind, modify, gets. cbv zeta.
  destruct (Get v "riesgo_global") as [r | f]; cbn [try ret throw fst snd];
    [|discriminate].
  destruct (ToDOMString r) as [t | f]; cbn [try ret throw fst snd]; [|discriminate].
  destruct (call_toLowerCase (toLowerCase b) r) as [l | f];
    cbn [try ret throw fst snd]; [|discriminate].
  page_simpl.
  destruct (add l ["riesgo-box"]) as [c | f]; cbn [try ret throw fst snd];
    [|discriminate].
  destruct (Get v "sequia_probable") as [s | f]; cbn [try ret throw fst snd];
    [|discriminate].
  destruct (Get v "prediccion_mensual") as [p | f]; cbn [try ret throw fst snd];
    [|discriminate].
  destruct p; try discriminate. intros _. rewrite forEach_fila_rows. reflexivity.
Qed.

(** The rows after a submission: those of the answer when the [try] block
    completes normally, none otherwise. *)
Lemma rows_after (w : World) :
  prediccionTbody_rows (submit_listener b w) =
  match completion b w, resolve_horizon b w with
  | Normal _, Normal h =>
      match fetch b (predict_request b w h) with
      | Responded {| ok := _; json := Json v |} => answer_rows v
      | _ => []
      end
  | _, _ => []
  end.
Proof.
  pose proof (views_after b w) as V. cbv zeta in V.
  destruct (completion b w) as [u | e] eqn:C; [|destruct V as (_ & _ & V & _); exact V].
  clear V. unfold completion in C. rewrite submit_listener_unfold.
  rewrite try_block_unfold in *.
  change (resolve_horizon b (loading w)) with (resolve_horizon b w) in *.
  change (escenario_value (loading w)) with (escenario_value w) in *.
  destruct (resolve_horizon b w) as [h | e]; [|discriminate].
  change (predict_request b (loading w) h) with (predict_request b w h) in *.
  destruct (escenario_value w =? ""); [discriminate|]. cbv zeta in *.
  destruct (fetch b (predict_request b w h)) as [[o [v | reason]] | reason];
    cbn [json ok] in *; try discriminate.
  destruct (negb o); [discriminate|].
  pose proof (mostrarResultados_rows v _ u C) as R.
  destruct (mostrarResultados b v _) as [[u' | e] w']; cbn [fst snd] in *;
    [|discriminate].
  page_simpl. exact R.
Qed.

Lemma same_inputs_read (w w' : World) :
  same_inputs w w' ->
  resolve_horizon b w' = resolve_horizon b w /\
  escenario_value w' = escenario_value w /\
  forall h, predict_request b w' h = predict_request b w h.
Proof.
  intros (H & E & N & F). unfold resolve_horizon, predict_request.
  rewrite H, E, N, F. repeat split.
Qed.

(** What a submission does depends on the page through the form alone. *)
Lemma completion_same_inputs (w w' : World) :
  same_inputs w w' -> completion b w' = completion b w.
Proof.
  intros S. destruct (same_inputs_read w w' S) as (R & E & P).
  rewrite !completion_unfold, R, E.
  destruct (resolve_horizon b w) as [h | e]; [|reflexivity].
  rewrite P. destruct (escenario_value w =? ""); [reflexivity|].
  destruct (fetch b (predict_request b w h)) as [[o [v | reason]] | reason];
    cbn [json ok]; try reflexivity.
  destruct (negb o); [reflexivity|]. apply mostrarResultados_fst.
Qed.

(** Submitting the same form again, against a backend that answers alike,
    gives again what the first submission gave: the same request, the same
    completion, the same rows (not twice as many), the same view and the same
    banner text. *)
Theorem resubmission_alike (w : World) :
  let w1 := submit_listener b w in
  completion b w1 = completion b w /\
  issued b w1 = issued b w /\
  prediccionTbody_rows (submit_listener b w1) = prediccionTbody_rows w1 /\
  visible (resultsSection_classList (submit_listener b w1))
  = visible (resultsSection_classList w1) /\
  visible (errorMessage_classList (submit_listener b w1))
  = visible (errorMessage_classList w1) /\
  (forall e, completion b w = Throw e -> shown b w1 = shown b w).
Proof.
  cbv zeta.
  assert (S : same_inputs w (submit_listener b w)).
  { destruct (submit_listener_form b w) as [(F1 & F2 & F3 & F4 & _) _].
    page_simpl. repeat split; assumption. }
  pose proof (completion_same_inputs _ _ S) as C.
  destruct (same_inputs_read _ _ S) as (R & E & P).
  split; [exact C|]. split.
  { rewrite !issued_cases, R, E. destruct (resolve_horizon b w); [|reflexivity].
    now rewrite P. }
  split.
  { rewrite !rows_after, C, R.
    destruct (completion b w); [|reflexivity].
    destruct (resolve_horizon b w); [|reflexivity]. now rewrite P. }
  pose proof (views_after b w) as V.
  pose proof (views_after b (submit_listener b w)) as V1.
  cbv zeta in V, V1. rewrite C in V1.
  destruct (completion b w) as [u | e].
  - destruct V as [Va Vb], V1 as [V1a V1b]. rewrite Va, Vb, V1a, V1b.
    repeat split. intros e [=].
  - destruct V as (Va & Vb & _ & Vd), V1 as (V1a & V1b & _ & V1d).
    rewrite Va, Vb, V1a, V1b. repeat split.
    intros e' [= <-]. unfold shown. now rewrite Vd, V1d.
Qed.

End Again.

(** ** Dates read back *)

Section DatesBack.

(** A valid date followed by ["T00:00:00Z"] parses, on every host, to a
    midnight UTC; read back at or east of UTC it gives the year and the month
    of the date, and behind UTC those of the day before. *)
Theorem date_read_back (h : DateHost) (c : CalDate) :
  valid_date c = true ->
  exists t,
    DateParse h (iso c ++ "T00:00:00Z")%string = Some t /\
    TimeWithinDay t = 0 /\
    (east_of_utc h ->
     getFullYear h t = year c /\ getMonth h t = month c - 1) /\
    (behind_utc h ->
     getFullYear h t * 12 + getMonth h t
     = year c * 12 + (month c - 1) - on_first c).
Proof.
  intros V. exists (time_of c). split; [now apply DateParse_iso|]. split.
  - unfold TimeWithinDay, time_of, MakeDate. rewrite Z.add_0_r.
    apply Z.mod_mul. unfold msPerDay; lia.
  - split; intros E.
    + split; [now apply getFullYear_time_of | now apply getMonth_time_of].
    + now apply local_month_behind_utc.
Qed.

Lemma date_read_back_witness :
  exists t,
    DateParse host_utc_minus_5 (iso (mkDate 2021 3 1) ++ "T00:00:00Z")%string = Some t /\
    TimeWithinDay t = 0 /\
    (east_of_utc host_utc_minus_5 ->
     getFullYear host_utc_minus_5 t = 2021 /\ getMonth host_utc_minus_5 t = 3 - 1) /\
    (behind_utc host_utc_minus_5 ->
     getFullYear host_utc_minus_5 t * 12 + getMonth host_utc_minus_5 t
     = 2021 * 12 + (3 - 1) - on_first (mkDate 2021 3 1)).
Proof.
  apply (date_read_back host_utc_minus_5 (mkDate 2021 3 1)). reflexivity.
Defined.

End DatesBack.

(** ** The statements on sample submissions *)

Section SampleSubmissions.

Local Open Scope string_scope.

Import Sample.

Lemma target_date_decides_witness :
  (forall e,
     calcularMesesHastaFecha host_utc "2022-05" LAST_DATA_DATE = Throw e ->
     completion (browser host_utc backend_ok) (page "12" "RCP45" "" "2022-05") = Throw e /\
     issued (browser host_utc backend_ok) (page "12" "RCP45" "" "2022-05") = [] /\
     shown (browser host_utc backend_ok) (page "12" "RCP45" "" "2022-05")
     = "❌ " ++ message e) /\
  (forall meses,
     calcularMesesHastaFecha host_utc "2022-05" LAST_DATA_DATE = Normal meses ->
     escenario_value (page "12" "RCP45" "" "2022-05") <> "" ->
     map (fun r => horizonte_meses (body r))
       (issued (browser host_utc backend_ok) (page "12" "RCP45" "" "2022-05"))
     = [of_Z meses]).
Proof.
  apply (target_date_decides (browser host_utc backend_ok)
           (page "12" "RCP45" "" "2022-05")).
  discriminate.
Defined.


Lemma rejection_shown_witness :
  completion (browser host_utc backend_rejects) (page "12" "RCP45" "" "")
  = Throw (mkError RemoteRejection "scenario invalid") /\
  shown (browser host_utc backend_rejects) (page "12" "RCP45" "" "")
  = "❌ " ++ "scenario invalid".
Proof.
  destruct (rejection_shown (browser host_utc backend_rejects)
              (page "12" "RCP45" "" "") (of_Z 12)
              [("detail", VString "scenario invalid")]
              eq_refl ltac:(discriminate) eq_refl) as [D _].
  apply D; [reflexivity | discriminate].
Defined.

Lemma rejection_with_object_list_witness :
  completion (browser host_utc backend_invalid) (page "12" "RCP45" "" "")
  = Throw (mkError RemoteRejection
             (joined "" (map (fun _ => "[object Object]")
                [[("msg", VString "field required")];
                 [("msg", VString "value is not a valid integer")]]))) /\
  shown (browser host_utc backend_invalid) (page "12" "RCP45" "" "")
  = "❌ " ++ joined "" (map (fun _ => "[object Object]")
                [[("msg", VString "field required")];
                 [("msg", VString "value is not a valid integer")]]).
Proof.
  apply (rejection_with_object_list (browser host_utc backend_invalid)
           (page "12" "RCP45" "" "") (of_Z 12)
           [("detail",
             VArray (map VObject
               [[("msg", VString "field required")];
                [("msg", VString "value is not a valid integer")]]))]);
    [reflexivity | discriminate | reflexivity | reflexivity
    | repeat constructor].
Defined.

Lemma transport_failure_shown_witness :
  completion (browser host_utc backend_down) (page "12" "RCP45" "" "")
  = Throw (mkError TransportFailure "Failed to fetch") /\
  shown (browser host_utc backend_down) (page "12" "RCP45" "" "")
  = "❌ " ++ "Failed to fetch" /\
  issued (browser host_utc backend_down) (page "12" "RCP45" "" "")
  = [predict_request (browser host_utc backend_down) (page "12" "RCP45" "" "") (of_Z 12)] /\
  visible (resultsSection_classList
             (submit_listener (browser host_utc backend_down) (page "12" "RCP45" "" "")))
  = false.
Proof.
  apply (transport_failure_shown (browser host_utc backend_down)
           (page "12" "RCP45" "" "") (of_Z 12) "Failed to fetch");
    [reflexivity | discriminate | left; reflexivity].
Defined.

Lemma forecast_rendered_witness :
  completion (browser host_utc backend_forecast) (page "" "RCP45" "" "2022-05")
  = Normal tt /\
  prediccionTbody_rows
    (submit_listener (browser host_utc backend_forecast) (page "" "RCP45" "" "2022-05"))
  = map row_of (prediccion_mensual sample_forecast).
Proof.
  destruct (forecast_rendered (browser host_utc backend_forecast)
              (page "" "RCP45" "" "2022-05") (of_Z 14) sample_forecast
              eq_refl ltac:(discriminate) eq_refl eq_refl) as (C & R & _).
  split; assumption.
Defined.

Lemma malformed_answer_fails_witness :
  completion (browser host_utc backend_null) (page "12" "RCP45" "" "")
  = Throw (mkError HostFault
             (fault_text (browser host_utc backend_null)
                (NullishProperty "riesgo_global"))) /\
  prediccionTbody_rows
    (submit_listener (browser host_utc backend_null) (page "12" "RCP45" "" "")) = [].
Proof.
  destruct (malformed_answer_fails (browser host_utc backend_null)
              (page "12" "RCP45" "" "") (of_Z 12) VNull
              eq_refl ltac:(discriminate) eq_refl
              (NullishProperty "riesgo_global") (or_introl (conj eq_refl eq_refl)))
    as (C & _ & _ & R).
  split; assumption.
Defined.

Lemma mostrarResultados_last_wins_witness :
  prediccionTbody_rows
    (snd (mostrarResultados (browser host_utc backend_forecast)
            (forecast_value sample_forecast)
            (snd (mostrarResultados (browser host_utc backend_forecast)
                    (forecast_value sample_forecast) (page "" "RCP45" "" "2022-05")))))
  = map row_of (prediccion_mensual sample_forecast).
Proof.
  destruct (mostrarResultados_last_wins (browser host_utc backend_forecast)
              sample_forecast sample_forecast (page "" "RCP45" "" "2022-05")
              eq_refl eq_refl) as (E & R & _).
  rewrite E. exact R.
Defined.

End SampleSubmissions.
